(** * rubipy.network.connection: the Connection class

    A shallow embedding of [src/rubipy/network/connection.py] and of the
    two exception classes of [src/rubipy/exceptions.py].

    Conventions of the embedding.
    - A coroutine is the function of what it does when awaited to its end:
      the value it returns or the exception it raises ([result]), the
      object state it leaves, and the sequence of calls it made to the
      outside ([event]: HTTP calls and sleeps).
    - httpx and asyncio are not part of the repository.  What the client
      answers to a call, what [aclose] does, what [response.json()]
      evaluates to and whether a sleep ends or is interrupted are inputs
      of the model.  A call to the outside that never returns is not
      among them.
    - The logger only consumes messages.  Of the log calls the model
      keeps the one formatting that can raise: the delay printed with
      [:.2f], which converts an [int] to a [float].  [str] of an [int] is
      its full decimal form (the optional digit limit of CPython is not
      modelled).
    - A Python [int] is a [Z].  A Python [float] is [NaN], an infinity or
      an exact rational: rounding and overflow of float results to an
      infinity are not modelled, conversion of an [int] too large for a
      float is (it raises). *)

From Stdlib Require Import ZArith QArith Qreduction String Ascii List Bool Lia.
From Stdlib Require Import DecimalString.
Import ListNotations.

Set Warnings "-register-all".

Local Open Scope string_scope.
Local Open Scope Z_scope.

(** ** Python numbers *)

Module PyNum.

Inductive pyfloat : Type :=
| FNaN
| FInf (negative : bool)
| FFin (q : Q).

Inductive pynum : Type :=
| PInt (z : Z)
| PFloat (f : pyfloat).

(** [bool(x)]: a number is falsy exactly when it equals zero. *)
Definition truthy (x : pynum) : bool :=
  match x with
  | PInt z => negb (z =? 0)
  | PFloat (FFin q) => negb (Qeq_bool q 0)
  | PFloat _ => true
  end.

(** [x > y] between floats; every comparison with [NaN] is false. *)
Definition fgt (x y : pyfloat) : bool :=
  match x, y with
  | FNaN, _ | _, FNaN => false
  | FInf true, _ => false
  | FInf false, FInf false => false
  | FInf false, _ => true
  | FFin _, FInf negative => negative
  | FFin p, FFin q => negb (Qle_bool p q)
  end.

(** The value of a number as a float, for a mixed comparison (Python
    compares an [int] with a [float] exactly). *)
Definition as_float (x : pynum) : pyfloat :=
  match x with
  | PInt z => FFin (inject_Z z)
  | PFloat f => f
  end.

(** [x > y]. *)
Definition gt (x y : pynum) : bool :=
  match x, y with
  | PInt a, PInt b => b <? a
  | _, _ => fgt (as_float x) (as_float y)
  end.

(** [max(a, b)] of two arguments: [a], unless [b > a]. *)
Definition max (a b : pynum) : pynum := if gt b a then b else a.

(** [0 <= x] as a proposition. *)
Definition nonneg (x : pynum) : Prop :=
  match x with
  | PInt z => 0 <= z
  | PFloat (FFin q) => (0 <= q)%Q
  | PFloat (FInf negative) => negative = false
  | PFloat FNaN => False
  end.

(** Numeric equality [x == y] as a proposition. *)
Definition num_eq (x y : pynum) : Prop :=
  match as_float x, as_float y with
  | FFin p, FFin q => (p == q)%Q
  | FInf a, FInf b => a = b
  | _, _ => False
  end.

End PyNum.
Export PyNum.

(** ** JSON values, as [json.loads] builds them *)

(** A [dict] is the list of its items; a lookup takes the first item with
    the key. *)
Inductive value : Type :=
| VNone
| VBool (b : bool)
| VNum (x : pynum)
| VStr (s : string)
| VList (items : list value)
| VDict (items : list (string * value)).

(** ** Exceptions *)

(** [HTTPStatusError] is a subclass of [HTTPError]; [HTTPError] below is
    any instance of [httpx.HTTPError] that is not an [HTTPStatusError].
    [OtherError] is whatever else the outside may raise. *)
Inductive exn : Type :=
| RubikaAPIError (message : string)
| RubikaConnectionError (message : string)
| HTTPStatusError (status_code : Z) (text : string)
| HTTPError (message : string)
| JSONDecodeError
| AttributeError (type_name attribute : string)
| OverflowError (message : string)
| OtherError (name : string).

Inductive result (A : Type) : Type :=
| Ret (a : A)
| Raise (e : exn).
Arguments Ret {A} a.
Arguments Raise {A} e.

Definition bind {A B : Type} (m : result A) (k : A -> result B) : result B :=
  match m with
  | Ret a => k a
  | Raise e => Raise e
  end.

Declare Scope py_scope.
Delimit Scope py_scope with py.
Notation "x <- m ;; k" := (bind m (fun x => k))
  (at level 61, m at next level, right associativity) : py_scope.
Local Open Scope py_scope.

(** [isinstance(e, HTTPError)], what the two outer [except] clauses catch. *)
Definition is_HTTPError (e : exn) : bool :=
  match e with
  | HTTPStatusError _ _ | HTTPError _ => true
  | _ => false
  end.

Definition is_RubikaAPIError (e : exn) : bool :=
  match e with RubikaAPIError _ => true | _ => false end.

Definition is_RubikaConnectionError (e : exn) : bool :=
  match e with RubikaConnectionError _ => true | _ => false end.

(** ** Strings *)

(** [str.upper()] on the ASCII letters.  Bytes of other code points are
    left as they are: no other code point has [O] or [K] as its upper
    case, so the comparison of the result with ['OK'] is Python's. *)
Definition upper_ascii (c : ascii) : ascii :=
  let n := N_of_ascii c in
  if ((97 <=? n) && (n <=? 122))%N then ascii_of_N (n - 32) else c.

Fixpoint upper (s : string) : string :=
  match s with
  | EmptyString => EmptyString
  | String c s' => String (upper_ascii c) (upper s')
  end.

(** [str(n)] of an [int]. *)
Definition str_of_int (z : Z) : string := NilZero.string_of_int (Z.to_int z).

(** ** The objects of httpx *)

Inductive Method : Type := GET | POST.

Definition ProxyTypes : Type := string.

(** [httpx.Timeout]: [Timeout(x)] sets the four limits to [x]. *)
Record Timeout : Type := mkTimeout {
  connect_timeout : option pynum;
  read_timeout : option pynum;
  write_timeout : option pynum;
  pool_timeout : option pynum
}.

Definition Timeout_of (x : pynum) : Timeout :=
  mkTimeout (Some x) (Some x) (Some x) (Some x).

(** The [timeout] argument of the constructor: a number or a [Timeout]. *)
Inductive timeout_arg : Type :=
| TimeoutNum (x : pynum)
| TimeoutObj (t : Timeout).

(** An [httpx.AsyncClient], by the configuration it was built with. *)
Record AsyncClient : Type := mkAsyncClient {
  client_timeout : Timeout;
  client_proxy : option ProxyTypes
}.

(** An [httpx.Response]: [is_success] is the property [raise_for_status]
    tests, [json] is what [response.json()] evaluates to. *)
Record Response : Type := mkResponse {
  status_code : Z;
  text : string;
  is_success : bool;
  json : result value
}.

Definition raise_for_status (r : Response) : result unit :=
  if is_success r then Ret tt else Raise (HTTPStatusError (status_code r) (text r)).

(** ** Connection *)

Record Connection : Type := mkConnection {
  token : string;
  base_url : string;
  timeout : Timeout;
  max_retry : Z;
  backoff_factor : pynum;
  proxy : option ProxyTypes;
  _client : option AsyncClient;
  _is_connected : bool
}.

(** Class attributes. *)
Definition TIMEOUT : pynum := PInt 10.
Definition BASE_URL : string := "https://botapi.rubika.ir/v3".
Definition MAX_RETRY : Z := 3.
Definition BACKOFF_FACTOR : pynum := PFloat (FFin (1 # 2)).

(** [x or d] for an optional string: [None] and [''] are falsy. *)
Definition str_or (x : option string) (d : string) : string :=
  match x with
  | Some EmptyString | None => d
  | Some s => s
  end.

(** [x or d] for an optional number: [None] and zero are falsy. *)
Definition num_or (x : option pynum) (d : pynum) : pynum :=
  match x with
  | Some n => if truthy n then n else d
  | None => d
  end.

Definition int_or (x : option Z) (d : Z) : Z :=
  match x with
  | Some n => if n =? 0 then d else n
  | None => d
  end.

(** [max(1, n)] on [int]: [1], unless [n > 1]. *)
Definition int_max (a b : Z) : Z := if a <? b then b else a.

(** [Connection.__init__]. *)
Definition init (token : string) (base_url : option string)
    (timeout : option timeout_arg) (max_try : option Z)
    (backoff_factor : option pynum) (proxy : option ProxyTypes) : Connection :=
  {| token := token;
     base_url := str_or base_url BASE_URL;
     timeout :=
       match timeout with
       | Some (TimeoutObj t) => t
       | Some (TimeoutNum x) => Timeout_of (num_or (Some x) TIMEOUT)
       | None => Timeout_of (num_or None TIMEOUT)
       end;
     max_retry := int_max 1 (int_or max_try MAX_RETRY);
     backoff_factor := PyNum.max (PFloat (FFin 0)) (num_or backoff_factor BACKOFF_FACTOR);
     proxy := proxy;
     _client := None;
     _is_connected := false |}.

(** ** Python built-ins used by [request] *)

Definition type_name (v : value) : string :=
  match v with
  | VNone => "NoneType"
  | VBool _ => "bool"
  | VNum (PInt _) => "int"
  | VNum (PFloat _) => "float"
  | VStr _ => "str"
  | VList _ => "list"
  | VDict _ => "dict"
  end.

Fixpoint lookup (key : string) (items : list (string * value)) : option value :=
  match items with
  | [] => None
  | (k, v) :: rest => if (k =? key)%string then Some v else lookup key rest
  end.

(** [data.get(key, default)]: only a [dict] has the method. *)
Definition py_get (data : value) (key : string) (default : value) : result value :=
  match data with
  | VDict items =>
      Ret (match lookup key items with Some v => v | None => default end)
  | other => Raise (AttributeError (type_name other) "get")
  end.

(** [status.upper()]: only a [str] has the method. *)
Definition py_upper (status : value) : result string :=
  match status with
  | VStr s => Ret (upper s)
  | other => Raise (AttributeError (type_name other) "upper")
  end.

(** [range(start, stop)]. *)
Definition range (start stop : Z) : list Z :=
  map (fun i => start + Z.of_nat i) (seq 0 (Z.to_nat (stop - start))).

(** Conversion of an [int] to a [float], as a mixed product does it: an
    [int] that rounds beyond the largest float raises. *)
Definition float_of_int (n : Z) : result pyfloat :=
  if 2 ^ 1024 - 2 ^ 970 <=? Z.abs n
  then Raise (OverflowError "int too large to convert to float")
  else Ret (FFin (inject_Z n)).

Definition fmul (x y : pyfloat) : pyfloat :=
  match x, y with
  | FNaN, _ | _, FNaN => FNaN
  | FInf a, FInf b => FInf (xorb a b)
  | FInf a, FFin q | FFin q, FInf a =>
      if Qeq_bool q 0 then FNaN else FInf (xorb a (negb (Qle_bool 0 q)))
  | FFin p, FFin q => FFin (Qred (p * q))
  end.

(** [x * n] for a number [x] and an [int] [n]. *)
Definition py_mul (x : pynum) (n : Z) : result pynum :=
  match x with
  | PInt a => Ret (PInt (a * n))
  | PFloat f => y <- float_of_int n ;; Ret (PFloat (fmul f y))
  end.

(** [f'{x:.2f}']: the float presentation converts an [int] first.  The
    text goes to the logger, only the possible exception is kept. *)
Definition format_2f (x : pynum) : result unit :=
  match x with
  | PInt n => _ <- float_of_int n ;; Ret tt
  | PFloat _ => Ret tt
  end.

(** ** The calls a coroutine makes to the outside *)

Inductive event : Type :=
| EvRequest (method : Method) (url : string) (payload : option value)
| EvSleep (delay : pynum).

Definition is_request (ev : event) : bool :=
  match ev with EvRequest _ _ _ => true | EvSleep _ => false end.

(** The HTTP calls of a trace, and the delays of its sleeps in order. *)
Definition requests_of (tr : list event) : list event := filter is_request tr.

Fixpoint sleeps_of (tr : list event) : list pynum :=
  match tr with
  | [] => []
  | EvSleep d :: rest => d :: sleeps_of rest
  | EvRequest _ _ _ :: rest => sleeps_of rest
  end.

(** What the client answers to the [n]-th call of one [request()], [n]
    counted from 1: a response or an exception. *)
Definition Transport : Type :=
  Z -> Method -> string -> option value -> result Response.

(** What [await sleep(delay)] does after the [n]-th attempt: it returns,
    or an exception interrupts it. *)
Definition Sleep : Type := Z -> pynum -> result unit.

(** ** Connection.connect, Connection.disconnect *)

Definition set_client (client : option AsyncClient) (self : Connection) : Connection :=
  {| token := token self; base_url := base_url self; timeout := timeout self;
     max_retry := max_retry self; backoff_factor := backoff_factor self;
     proxy := proxy self; _client := client; _is_connected := _is_connected self |}.

Definition set_is_connected (b : bool) (self : Connection) : Connection :=
  {| token := token self; base_url := base_url self; timeout := timeout self;
     max_retry := max_retry self; backoff_factor := backoff_factor self;
     proxy := proxy self; _client := _client self; _is_connected := b |}.

(** [AsyncClient(timeout=..., proxy=...)] as httpx builds it. *)
Definition AsyncClient_new (t : Timeout) (p : option ProxyTypes) : result AsyncClient :=
  Ret (mkAsyncClient t p).

(** [connect()]; [new_client] is the constructor of the client, which
    may raise. *)
Definition connect (new_client : Timeout -> option ProxyTypes -> result AsyncClient)
    (self : Connection) : result unit * Connection :=
  if _is_connected self then
    (Raise (RubikaConnectionError "Connection is Already connected"), self)
  else
    match new_client (timeout self) (proxy self) with
    | Raise e => (Raise e, self)
    | Ret client => (Ret tt, set_is_connected true (set_client (Some client) self))
    end.

(** [disconnect()]; [aclose] is what closing the client does. *)
Definition disconnect (aclose : AsyncClient -> result unit)
    (self : Connection) : result unit * Connection :=
  if negb (_is_connected self) then
    (Raise (RubikaConnectionError "Connection is already disconnected"), self)
  else
    let self := set_is_connected false self in
    match _client self with
    | None => (Raise (AttributeError "NoneType" "aclose"), self)
    | Some client =>
        match aclose client with
        | Raise e => (Raise e, self)
        | Ret _ => (Ret tt, set_client None self)
        end
    end.

(** ** Connection._request_url, Connection.request *)

Definition _request_url (self : Connection) (endpoint : string) : string :=
  (base_url self ++ "/" ++ token self ++ "/" ++ endpoint)%string.

(** How one turn of the [for] loop ends: the function is left (by
    [return] or by an exception), or the turn falls through to the sleep. *)
Inductive flow : Type :=
| Exit (r : result value)
| Continue (wait_for : pynum).

Section Request.

(** [repr] of a value that is not a [str], as an f-string prints it. *)
Variable repr : value -> string.

Definition format (v : value) : string :=
  match v with
  | VStr s => s
  | other => repr other
  end.

Definition api_error_message (endpoint : string) (status message : value) : string :=
  ("[" ++ endpoint ++ "] API returned error status: " ++ format status
     ++ " - " ++ format message)%string.

Definition malformed_message (endpoint : string) : string :=
  ("[" ++ endpoint ++ "] Could not parse JSON from response")%string.

Definition exhausted_message (endpoint : string) (attempts : Z) : string :=
  ("[" ++ endpoint ++ "] Request failed after " ++ str_of_int attempts
     ++ " attempts.")%string.

(** The inner [try] with its [except JSONDecodeError]. *)
Definition read_envelope (endpoint : string) (response : Response) : result value :=
  let body :=
    data <- json response ;;
    status <- py_get data "status" VNone ;;
    up <- py_upper status ;;
    if negb (up =? "OK")%string then
      message <- py_get data "dev_message" (VStr "Unknown error") ;;
      Raise (RubikaAPIError (api_error_message endpoint status message))
    else
      py_get data "data" (VDict [])
  in
  match body with
  | Raise JSONDecodeError => Raise (RubikaAPIError (malformed_message endpoint))
  | r => r
  end.

Variable client_request : Transport.
Variable sleep : Sleep.
Variable self : Connection.
Variable endpoint : string.
Variable method : Method.
Variable payload : option value.

(** The body of the outer [try]. *)
Definition attempt_io (url : string) (attempt : Z) : result value :=
  response <- client_request attempt method url payload ;;
  _ <- raise_for_status response ;;
  read_envelope endpoint response.

(** The two lines between the outer [try] and the [sleep]: the delay,
    and the log line that prints it. *)
Definition wait_for (attempt : Z) : result pynum :=
  d <- py_mul (backoff_factor self) (2 ^ (attempt - 1)) ;;
  _ <- format_2f d ;;
  Ret d.

(** One turn of the loop up to the [sleep], after its HTTP call was
    issued. *)
Definition run_attempt (url : string) (attempt : Z) : flow :=
  match attempt_io url attempt with
  | Ret v => Exit (Ret v)
  | Raise e =>
      if is_HTTPError e then
        match wait_for attempt with
        | Ret d => Continue d
        | Raise e' => Exit (Raise e')
        end
      else Exit (Raise e)
  end.

(** [for attempt in attempts: ...] followed by the final [raise]. *)
Fixpoint request_loop (url : string) (attempts : list Z) : result value * list event :=
  match attempts with
  | [] => (Raise (RubikaAPIError (exhausted_message endpoint (max_retry self))), [])
  | attempt :: rest =>
      match run_attempt url attempt with
      | Exit r => (r, [EvRequest method url payload])
      | Continue d =>
          match sleep attempt d with
          | Raise e => (Raise e, [EvRequest method url payload; EvSleep d])
          | Ret _ =>
              let (r, tr) := request_loop url rest in
              (r, EvRequest method url payload :: EvSleep d :: tr)
          end
      end
  end.

Definition request : result value * list event :=
  match _client self with
  | None =>
      (Raise (RubikaConnectionError
                "Connection is not connected, call 'connect()' first."), [])
  | Some _ =>
      request_loop (_request_url self endpoint) (range 1 (max_retry self + 1))
  end.

End Request.

(** ** The life of a Connection *)

(** The invariant of the data model: the flag is set exactly when a
    client is held. *)
Definition conn_inv (self : Connection) : Prop :=
  _is_connected self = true <-> _client self <> None.

(** A connected Connection: the flag is set and a client is held. *)
Definition Connected (self : Connection) : Prop :=
  _is_connected self = true /\ exists client, _client self = Some client.

(** A call of one of the three coroutines, with what the outside does
    during the call. *)
Inductive op : Type :=
| Connect (new_client : Timeout -> option ProxyTypes -> result AsyncClient)
| Request (repr : value -> string) (client_request : Transport) (sleep : Sleep)
    (endpoint : string) (method : Method) (payload : option value)
| Disconnect (aclose : AsyncClient -> result unit).

(** The exception a call ends with, if any, and the state it leaves.
    [request] assigns no attribute of [self]. *)
Definition exec (o : op) (self : Connection) : option exn * Connection :=
  match o with
  | Connect new_client =>
      match connect new_client self with
      | (Ret _, self') => (None, self')
      | (Raise e, self') => (Some e, self')
      end
  | Request repr client_request sleep endpoint method payload =>
      match fst (request repr client_request sleep self endpoint method payload) with
      | Ret _ => (None, self)
      | Raise e => (Some e, self)
      end
  | Disconnect aclose =>
      match disconnect aclose self with
      | (Ret _, self') => (None, self')
      | (Raise e, self') => (Some e, self')
      end
  end.

Definition run (ops : list op) (self : Connection) : Connection :=
  fold_left (fun s o => snd (exec o s)) ops self.

(** The call is a [disconnect()] that passes its guard and whose
    [aclose] raises. *)
Definition close_fails (o : op) (self : Connection) : Prop :=
  match o with
  | Disconnect aclose =>
      _is_connected self = true /\
      exists client e, _client self = Some client /\ aclose client = Raise e
  | _ => False
  end.

(** A call keeps the invariant and, when it fails, the state. *)
Definition state_safe (o : op) (self : Connection) : Prop :=
  conn_inv (snd (exec o self))
  /\ (fst (exec o self) <> None -> snd (exec o self) = self).

(** Every lifecycle misuse on [self] ends at once with a
    [RubikaConnectionError], the state untouched and the outside not
    called. *)
Definition misuse_rejected (self : Connection) : Prop :=
  (_is_connected self = true ->
   forall new_client, exists msg,
     connect new_client self = (Raise (RubikaConnectionError msg), self)) /\
  (_is_connected self = false ->
   forall aclose, exists msg,
     disconnect aclose self = (Raise (RubikaConnectionError msg), self)) /\
  (_is_connected self = false ->
   forall repr client_request sleep endpoint method payload, exists msg,
     request repr client_request sleep self endpoint method payload
     = (Raise (RubikaConnectionError msg), [])).

(** ** The retry loop, seen from outside *)

(** The trace of turns that fell through to their sleep, by the delays. *)
Definition retry_trace (method : Method) (url : string) (payload : option value)
    (delays : list pynum) : list event :=
  flat_map (fun d => [EvRequest method url payload; EvSleep d]) delays.

(** [request()] on [self] gets as far as its [k]-th attempt: each earlier
    attempt fell through to the sleep and the sleep returned, with the
    delays [delays]. *)
Definition reaches (repr : value -> string) (client_request : Transport)
    (sleep : Sleep) (self : Connection) (endpoint : string) (method : Method)
    (payload : option value) (k : Z) (delays : list pynum) : Prop :=
  Forall2
    (fun attempt d =>
       run_attempt repr client_request self endpoint method payload
         (_request_url self endpoint) attempt = Continue d
       /\ sleep attempt d = Ret tt)
    (range 1 k) delays.

(** The [attempt]-th HTTP call fails with a transport-level error or
    with an HTTP-status error. *)
Definition fails_retryably (client_request : Transport) (method : Method)
    (url : string) (payload : option value) (attempt : Z) : Prop :=
  (exists e, client_request attempt method url payload = Raise e
             /\ is_HTTPError e = true) \/
  (exists r, client_request attempt method url payload = Ret r
             /\ is_success r = false).

(** [backoff_factor * 2 ** (attempt - 1)], when the product is defined. *)
Definition delay (self : Connection) (attempt : Z) : pynum :=
  match backoff_factor self with
  | PInt a => PInt (a * 2 ^ (attempt - 1))
  | PFloat f => PFloat (fmul f (FFin (inject_Z (2 ^ (attempt - 1)))))
  end.

(** The delay can be computed and printed at every attempt of [self]:
    no power of two of the loop is too large for a float, nor is the
    largest delay when it is an [int]. *)
Definition delays_defined (self : Connection) : Prop :=
  match backoff_factor self with
  | PInt a => Z.abs a * 2 ^ (max_retry self - 1) < 2 ^ 1024 - 2 ^ 970
  | PFloat _ => max_retry self <= 1024
  end.

(** URL construction in the words of the specification: the three parts
    joined with ["/"]. *)
Definition url_spec (baseURL token endpoint : string) : string :=
  String.concat "/" [baseURL; token; endpoint].

(** ** Test doubles *)

Module Mock.

Definition repr (v : value) : string := "<repr>".

(** A transport that raises a transport-level error on every call. *)
Definition unreachable_host : Transport :=
  fun _ _ _ _ => Raise (HTTPError "All connection attempts failed").

(** [asyncio.sleep] as it returns when the delay has passed. *)
Definition sleep : Sleep := fun _ _ => Ret tt.

Definition ok_response (body : result value) : Response :=
  mkResponse 200 "" true body.

(** A transport that answers every call with the same response. *)
Definition always (r : Response) : Transport := fun _ _ _ _ => Ret r.

(** A transport whose first call fails and whose later calls answer [r]. *)
Definition second_time (r : Response) : Transport :=
  fun n _ _ _ => if n =? 1 then Raise (HTTPError "timed out") else Ret r.

Definition ok_envelope : value :=
  VDict [("status", VStr "OK"); ("data", VDict [("x", VNum (PInt 1))])].

Definition error_envelope : value :=
  VDict [("status", VStr "ERROR"); ("dev_message", VStr "bad token")].

Definition no_status_envelope : value :=
  VDict [("data", VDict [])].

Definition fresh : Connection :=
  init "T" (Some "https://x/v3") None None None None.

Definition live : Connection := snd (connect AsyncClient_new fresh).

(** [aclose] interrupted by an exception. *)
Definition broken_close : AsyncClient -> result unit :=
  fun _ => Raise (OtherError "CancelledError").

(** The state a [disconnect()] leaves when [aclose] raises. *)
Definition half_closed : Connection := snd (disconnect broken_close live).

End Mock.

(** ** Sequences of calls *)

(** No [disconnect()] of the sequence run from [self] has its [aclose]
    raise. *)
Fixpoint closes_cleanly (ops : list op) (self : Connection) : Prop :=
  match ops with
  | [] => True
  | o :: rest => ~ close_fails o self /\ closes_cleanly rest (snd (exec o self))
  end.

(** The spellings of the status that [upper] turns into ["OK"]. *)
Definition ok_spelling (s : string) : Prop :=
  (s = "OK" \/ s = "Ok" \/ s = "oK" \/ s = "ok")%string.

(** More test doubles. *)
Module Fixture.

(** [asyncio.sleep] interrupted by a cancellation. *)
Definition cancelled_sleep : Sleep :=
  fun _ _ => Raise (OtherError "CancelledError").

(** A transport that raises something that is not an [httpx.HTTPError]. *)
Definition bad_url : Transport :=
  fun _ _ _ _ => Raise (OtherError "InvalidURL").

Definition list_body : value := VList [VNum (PInt 1); VNum (PInt 2)].

Definition numeric_status_envelope : value :=
  VDict [("status", VNum (PInt 200)); ("data", VDict [])].

Definition lower_ok_envelope : value :=
  VDict [("status", VStr "ok")].

(** A connected Connection with a retry budget of 2000 attempts. *)
Definition patient : Connection :=
  snd (connect AsyncClient_new (init "T" None None (Some 2000) None None)).

(** A Connection built with a negative backoff factor. *)
Definition eager : Connection :=
  init "T" None None None (Some (PInt (-1))) None.

(** A Connection built with the [int] 2 as backoff factor. *)
Definition steady : Connection :=
  init "T" None None None (Some (PInt 2)) None.

(** A 200 response whose body is the single byte [0xFF]: the bytes are
    not UTF-8, so they are not valid JSON, and [response.json()] raises
    [UnicodeDecodeError], a [ValueError] that is not a
    [JSONDecodeError]. *)
Definition undecodable_response : Response :=
  mkResponse 200 "" true (Raise (OtherError "UnicodeDecodeError")).

End Fixture.

(** * Properties *)

Local Open Scope list_scope.

(** ** [range] *)

Lemma range_nil (a b : Z) : b <= a -> range a b = [].
Proof.
  intros H. unfold range.
  replace (Z.to_nat (b - a)) with 0%nat by lia. reflexivity.
Qed.

Lemma range_cons (a b : Z) : a < b -> range a b = a :: range (a + 1) b.
Proof.
  intros H. unfold range.
  replace (Z.to_nat (b - a)) with (S (Z.to_nat (b - (a + 1)))) by lia.
  cbn [seq map]. f_equal; [lia|].
  rewrite <- seq_shift, map_map.
  apply map_ext. intros i. lia.
Qed.

Lemma range_split (a k b : Z) :
  a <= k < b -> range a b = range a k ++ k :: range (k + 1) b.
Proof.
  intros H.
  remember (Z.to_nat (k - a)) as n eqn:En.
  revert a H En. induction n as [|n IH]; intros a H En.
  - assert (a = k) by lia. subst a.
    rewrite (range_nil k k) by lia. now rewrite range_cons by lia.
  - rewrite (range_cons a b) by lia. rewrite (range_cons a k) by lia.
    cbn [app]. f_equal. apply IH; lia.
Qed.

Lemma range_length (a b : Z) : length (range a b) = Z.to_nat (b - a).
Proof. unfold range. now rewrite length_map, length_seq. Qed.

Lemma range_bounds (a b x : Z) : In x (range a b) -> a <= x < b.
Proof.
  unfold range. rewrite in_map_iff. intros (i & <- & Hi).
  apply in_seq in Hi. lia.
Qed.

(** ** Traces *)

Lemma retry_trace_requests method url payload delays :
  length (requests_of (retry_trace method url payload delays)) = length delays.
Proof.
  induction delays as [|d ds IH]; cbn; [reflexivity|]. now f_equal.
Qed.

Lemma retry_trace_sleeps method url payload delays :
  sleeps_of (retry_trace method url payload delays) = delays.
Proof.
  induction delays as [|d ds IH]; cbn; [reflexivity|]. now f_equal.
Qed.

Lemma sleeps_of_app (t1 t2 : list event) :
  sleeps_of (t1 ++ t2) = sleeps_of t1 ++ sleeps_of t2.
Proof.
  induction t1 as [|[m u p|d] t1 IH]; cbn; [reflexivity|assumption|now f_equal].
Qed.

(** ** The loop *)

Section Loop.

Variable repr : value -> string.
Variable client_request : Transport.
Variable sleep : Sleep.
Variable self : Connection.
Variable endpoint : string.
Variable method : Method.
Variable payload : option value.

Local Abbreviation url := (_request_url self endpoint).
Local Abbreviation turn :=
  (run_attempt repr client_request self endpoint method payload url).
Local Abbreviation loop :=
  (request_loop repr client_request sleep self endpoint method payload url).

(** Turns that fall through to the sleep only add their calls and
    sleeps in front of what the rest of the loop does. *)
Lemma request_loop_prefix (before : list Z) (delays : list pynum) (rest : list Z) :
  Forall2 (fun attempt d => turn attempt = Continue d /\ sleep attempt d = Ret tt)
    before delays ->
  loop (before ++ rest)
  = (fst (loop rest), retry_trace method url payload delays ++ snd (loop rest)).
Proof.
  induction 1 as [|a d before delays [Ha Hs] _ IH]; cbn [app].
  - cbn [retry_trace flat_map app]. now destruct (loop rest).
  - cbn [request_loop]. rewrite Ha, Hs, IH. reflexivity.
Qed.

(** A sleep that is interrupted ends the call with its exception. *)
Lemma request_loop_sleep_raises (attempt : Z) (rest : list Z) (d : pynum) (e : exn) :
  turn attempt = Continue d ->
  sleep attempt d = Raise e ->
  loop (attempt :: rest)
  = (Raise e, [EvRequest method url payload; EvSleep d]).
Proof.
  intros Ha Hs. cbn [request_loop]. now rewrite Ha, Hs.
Qed.

(** A turn that leaves the function ends the loop with one HTTP call and
    no sleep, whatever attempts remain. *)
Lemma request_loop_exit (attempt : Z) (rest : list Z) (r : result value) :
  turn attempt = Exit r ->
  loop (attempt :: rest) = (r, [EvRequest method url payload]).
Proof.
  intros H. cbn [request_loop]. now rewrite H.
Qed.

(** The shape of every terminal attempt of [request()]: when the loop
    gets to its [k]-th attempt and that one leaves the function, the
    call ends there. *)
Lemma request_exit_at (k : Z) (delays : list pynum) (r : result value) :
  (exists client, _client self = Some client) ->
  1 <= k <= max_retry self ->
  reaches repr client_request sleep self endpoint method payload k delays ->
  turn k = Exit r ->
  request repr client_request sleep self endpoint method payload
  = (r, retry_trace method url payload delays ++ [EvRequest method url payload]).
Proof.
  intros [client Hc] Hk Hreach Hexit.
  unfold request. rewrite Hc.
  rewrite (range_split 1 k (max_retry self + 1)) by lia.
  rewrite (request_loop_prefix _ delays) by exact Hreach.
  now rewrite (request_loop_exit _ _ r) by exact Hexit.
Qed.

End Loop.

(** ** One attempt on a structurally successful response *)

Section Attempt.

Variable repr : value -> string.
Variable client_request : Transport.
Variable self : Connection.
Variable endpoint : string.
Variable method : Method.
Variable payload : option value.
Variable url : string.
Variable attempt : Z.
Variable resp : Response.

Hypothesis Hsent : client_request attempt method url payload = Ret resp.
Hypothesis Hsuccess : is_success resp = true.

Local Abbreviation turn :=
  (run_attempt repr client_request self endpoint method payload url attempt).

Lemma attempt_io_response :
  attempt_io repr client_request endpoint method payload url attempt
  = read_envelope repr endpoint resp.
Proof.
  unfold attempt_io, raise_for_status. rewrite Hsent. cbn [bind].
  now rewrite Hsuccess.
Qed.

Lemma run_attempt_malformed :
  json resp = Raise JSONDecodeError ->
  turn = Exit (Raise (RubikaAPIError (malformed_message endpoint))).
Proof.
  intros Hj. unfold run_attempt. rewrite attempt_io_response.
  unfold read_envelope. rewrite Hj. reflexivity.
Qed.

Lemma run_attempt_error_status items s :
  json resp = Ret (VDict items) ->
  lookup "status" items = Some (VStr s) ->
  upper s <> "OK"%string ->
  turn = Exit (Raise (RubikaAPIError
                 (api_error_message repr endpoint (VStr s)
                    match lookup "dev_message" items with
                    | Some m => m
                    | None => VStr "Unknown error"
                    end))).
Proof.
  intros Hj Hs Hup. unfold run_attempt. rewrite attempt_io_response.
  unfold read_envelope. rewrite Hj. cbn [bind py_get]. rewrite Hs.
  cbn [bind py_upper].
  destruct (String.eqb_spec (upper s) "OK") as [E|_]; [contradiction|].
  reflexivity.
Qed.

Lemma run_attempt_ok items s :
  json resp = Ret (VDict items) ->
  lookup "status" items = Some (VStr s) ->
  upper s = "OK"%string ->
  turn = Exit (Ret match lookup "data" items with
                   | Some v => v
                   | None => VDict []
                   end).
Proof.
  intros Hj Hs Hup. unfold run_attempt. rewrite attempt_io_response.
  unfold read_envelope. rewrite Hj. cbn [bind py_get]. rewrite Hs.
  cbn [bind py_upper]. rewrite Hup. reflexivity.
Qed.

Lemma run_attempt_no_status items :
  json resp = Ret (VDict items) ->
  lookup "status" items = None \/ lookup "status" items = Some VNone ->
  turn = Exit (Raise (AttributeError "NoneType" "upper")).
Proof.
  intros Hj Hs. unfold run_attempt. rewrite attempt_io_response.
  unfold read_envelope. rewrite Hj. cbn [bind py_get].
  destruct Hs as [-> | ->]; reflexivity.
Qed.

End Attempt.

(** [status.upper() == 'OK'] holds for the four spellings of the word and
    for nothing else. *)
Lemma upper_ok_iff (s : string) :
  upper s = "OK"%string <->
  (s = "OK" \/ s = "Ok" \/ s = "oK" \/ s = "ok")%string.
Proof.
  split.
  - destruct s as [|c1 [|c2 [|c3 s]]]; cbn [upper]; try discriminate.
    intros H. injection H as H1 H2.
    assert (Hc1 : c1 = "O"%char \/ c1 = "o"%char).
    { destruct c1 as [[] [] [] [] [] [] [] []]; vm_compute in H1;
        try discriminate H1; auto. }
    assert (Hc2 : c2 = "K"%char \/ c2 = "k"%char).
    { destruct c2 as [[] [] [] [] [] [] [] []]; vm_compute in H2;
        try discriminate H2; auto. }
    destruct Hc1 as [-> | ->], Hc2 as [-> | ->]; auto.
  - intros [-> | [-> | [-> | ->]]]; reflexivity.
Qed.

(** ** Terminal attempts of [request()] *)

(** C2.  On a connected Connection, when [request()] gets to an attempt
    whose response passes [raise_for_status] and whose body parses as an
    envelope with a status string that is not ["OK"] in any letter case,
    the call ends on that attempt with [RubikaAPIError]: the trace ends
    with the HTTP call of that attempt, no sleep and no further call
    follow it, and the message carries the endpoint, the status as
    reported and the [dev_message] item, ["Unknown error"] when the
    envelope has none. *)
Theorem request_error_status_not_retried
    (repr : value -> string) (client_request : Transport) (sleep : Sleep)
    (self : Connection) (endpoint : string) (method : Method)
    (payload : option value)
    (k : Z) (delays : list pynum) (resp : Response)
    (items : list (string * value)) (s : string) :
  Connected self ->
  1 <= k <= max_retry self ->
  reaches repr client_request sleep self endpoint method payload k delays ->
  client_request k method (_request_url self endpoint) payload = Ret resp ->
  is_success resp = true ->
  json resp = Ret (VDict items) ->
  lookup "status" items = Some (VStr s) ->
  upper s <> "OK"%string ->
  request repr client_request sleep self endpoint method payload
  = (Raise (RubikaAPIError
             ("[" ++ endpoint ++ "] API returned error status: " ++ s ++ " - "
                ++ format repr match lookup "dev_message" items with
                               | Some m => m
                               | None => VStr "Unknown error"
                               end)%string),
     retry_trace method (_request_url self endpoint) payload delays
       ++ [EvRequest method (_request_url self endpoint) payload]).
Proof.
  intros [_ Hc] Hk Hreach Hsent Hok Hj Hs Hup.
  apply request_exit_at with (k := k); try assumption.
  now apply (run_attempt_error_status _ _ _ _ _ _ _ _ resp Hsent Hok items s).
Qed.

Lemma request_error_status_not_retried_witness :
  request Mock.repr (Mock.second_time (Mock.ok_response (Ret Mock.error_envelope)))
    Mock.sleep Mock.live "sendText" POST None
  = (Raise (RubikaAPIError "[sendText] API returned error status: ERROR - bad token"),
     [EvRequest POST "https://x/v3/T/sendText" None;
      EvSleep (PFloat (FFin (1 # 2)));
      EvRequest POST "https://x/v3/T/sendText" None]).
Proof.
  apply (request_error_status_not_retried Mock.repr
           (Mock.second_time (Mock.ok_response (Ret Mock.error_envelope)))
           Mock.sleep Mock.live "sendText" POST None 2 [PFloat (FFin (1 # 2))]
           (Mock.ok_response (Ret Mock.error_envelope))
           [("status", VStr "ERROR"); ("dev_message", VStr "bad token")] "ERROR").
  - split; [reflexivity | eexists; reflexivity].
  - vm_compute. split; discriminate.
  - repeat constructor.
  - reflexivity.
  - reflexivity.
  - reflexivity.
  - reflexivity.
  - vm_compute. discriminate.
Defined.

(** X21.  On a connected Connection, when [request()] gets to an attempt
    whose response passes [raise_for_status] and on whose body
    [response.json()] raises [JSONDecodeError], the call ends on that
    attempt with the could-not-parse [RubikaAPIError]: the trace ends
    with the HTTP call of that attempt, with no sleep and no further
    call after it, however many attempts [max_retry] leaves. *)
Theorem request_malformed_body_not_retried
    (repr : value -> string) (client_request : Transport) (sleep : Sleep)
    (self : Connection) (endpoint : string) (method : Method)
    (payload : option value)
    (k : Z) (delays : list pynum) (resp : Response) :
  Connected self ->
  1 <= k <= max_retry self ->
  reaches repr client_request sleep self endpoint method payload k delays ->
  client_request k method (_request_url self endpoint) payload = Ret resp ->
  is_success resp = true ->
  json resp = Raise JSONDecodeError ->
  request repr client_request sleep self endpoint method payload
  = (Raise (RubikaAPIError
             ("[" ++ endpoint ++ "] Could not parse JSON from response")%string),
     retry_trace method (_request_url self endpoint) payload delays
       ++ [EvRequest method (_request_url self endpoint) payload]).
Proof.
  intros [_ Hc] Hk Hreach Hsent Hok Hj.
  apply request_exit_at with (k := k); try assumption.
  now apply (run_attempt_malformed _ _ _ _ _ _ _ _ resp Hsent Hok).
Qed.

Lemma request_malformed_body_not_retried_witness :
  request Mock.repr (Mock.always (Mock.ok_response (Raise JSONDecodeError)))
    Mock.sleep Mock.live "sendText" POST None
  = (Raise (RubikaAPIError "[sendText] Could not parse JSON from response"),
     [EvRequest POST "https://x/v3/T/sendText" None]).
Proof.
  apply (request_malformed_body_not_retried Mock.repr
           (Mock.always (Mock.ok_response (Raise JSONDecodeError)))
           Mock.sleep Mock.live "sendText" POST None 1 []
           (Mock.ok_response (Raise JSONDecodeError))).
  - split; [reflexivity | eexists; reflexivity].
  - vm_compute. split; discriminate.
  - constructor.
  - reflexivity.
  - reflexivity.
  - reflexivity.
Defined.

(** C4.  On a connected Connection, when [request()] gets to an attempt
    whose response passes [raise_for_status] and whose body parses as an
    envelope with a status string equal to ["OK"] in some letter case,
    the call returns on that attempt: the trace ends with the HTTP call
    of that attempt, with no sleep and no further call after it, and the
    value returned is the [data] item of the envelope as parsed, or the
    empty [dict] when the envelope has none. *)
Theorem request_ok_returns_data
    (repr : value -> string) (client_request : Transport) (sleep : Sleep)
    (self : Connection) (endpoint : string) (method : Method)
    (payload : option value)
    (k : Z) (delays : list pynum) (resp : Response)
    (items : list (string * value)) (s : string) :
  Connected self ->
  1 <= k <= max_retry self ->
  reaches repr client_request sleep self endpoint method payload k delays ->
  client_request k method (_request_url self endpoint) payload = Ret resp ->
  is_success resp = true ->
  json resp = Ret (VDict items) ->
  lookup "status" items = Some (VStr s) ->
  upper s = "OK"%string ->
  request repr client_request sleep self endpoint method payload
  = (Ret match lookup "data" items with
         | Some v => v
         | None => VDict []
         end,
     retry_trace method (_request_url self endpoint) payload delays
       ++ [EvRequest method (_request_url self endpoint) payload]).
Proof.
  intros [_ Hc] Hk Hreach Hsent Hok Hj Hs Hup.
  apply request_exit_at with (k := k); try assumption.
  now apply (run_attempt_ok _ _ _ _ _ _ _ _ resp Hsent Hok items s).
Qed.

Lemma request_ok_returns_data_witness :
  request Mock.repr (Mock.always (Mock.ok_response (Ret Mock.ok_envelope)))
    Mock.sleep Mock.live "sendText" POST None
  = (Ret (VDict [("x", VNum (PInt 1))]),
     [EvRequest POST "https://x/v3/T/sendText" None]).
Proof.
  apply (request_ok_returns_data Mock.repr
           (Mock.always (Mock.ok_response (Ret Mock.ok_envelope)))
           Mock.sleep Mock.live "sendText" POST None 1 []
           (Mock.ok_response (Ret Mock.ok_envelope))
           [("status", VStr "OK"); ("data", VDict [("x", VNum (PInt 1))])] "OK").
  - split; [reflexivity | eexists; reflexivity].
  - vm_compute. split; discriminate.
  - constructor.
  - reflexivity.
  - reflexivity.
  - reflexivity.
  - reflexivity.
  - reflexivity.
Defined.

(** C9.  On a connected Connection, when [request()] gets to an attempt
    whose response passes [raise_for_status] and whose body parses as an
    envelope in which the [status] item is absent or [None], the call
    ends with the [AttributeError] of calling [upper] on [None]: an
    exception that is neither [RubikaAPIError] nor
    [RubikaConnectionError]. *)
Theorem request_missing_status_raises_attribute_error
    (repr : value -> string) (client_request : Transport) (sleep : Sleep)
    (self : Connection) (endpoint : string) (method : Method)
    (payload : option value)
    (k : Z) (delays : list pynum) (resp : Response)
    (items : list (string * value)) :
  Connected self ->
  1 <= k <= max_retry self ->
  reaches repr client_request sleep self endpoint method payload k delays ->
  client_request k method (_request_url self endpoint) payload = Ret resp ->
  is_success resp = true ->
  json resp = Ret (VDict items) ->
  lookup "status" items = None \/ lookup "status" items = Some VNone ->
  exists e,
    fst (request repr client_request sleep self endpoint method payload) = Raise e
    /\ e = AttributeError "NoneType" "upper"
    /\ is_RubikaAPIError e = false
    /\ is_RubikaConnectionError e = false.
Proof.
  intros [_ Hc] Hk Hreach Hsent Hok Hj Hs.
  exists (AttributeError "NoneType" "upper").
  rewrite (request_exit_at repr client_request sleep self endpoint method payload
             k delays (Raise (AttributeError "NoneType" "upper")));
    try assumption.
  - repeat split.
  - now apply (run_attempt_no_status _ _ _ _ _ _ _ _ resp Hsent Hok items).
Qed.

Lemma request_missing_status_raises_attribute_error_witness :
  exists e,
    fst (request Mock.repr
           (Mock.always (Mock.ok_response (Ret Mock.no_status_envelope)))
           Mock.sleep Mock.live "getMe" POST None) = Raise e
    /\ e = AttributeError "NoneType" "upper"
    /\ is_RubikaAPIError e = false
    /\ is_RubikaConnectionError e = false.
Proof.
  apply (request_missing_status_raises_attribute_error Mock.repr
           (Mock.always (Mock.ok_response (Ret Mock.no_status_envelope)))
           Mock.sleep Mock.live "getMe" POST None 1 []
           (Mock.ok_response (Ret Mock.no_status_envelope))
           [("data", VDict [])]).
  - split; [reflexivity | eexists; reflexivity].
  - vm_compute. split; discriminate.
  - constructor.
  - reflexivity.
  - reflexivity.
  - reflexivity.
  - left. reflexivity.
Defined.

(** ** URL construction *)

Lemma append_assoc (a b c : string) :
  ((a ++ b) ++ c = a ++ (b ++ c))%string.
Proof. induction a as [|x a IH]; cbn; [reflexivity | now rewrite IH]. Qed.

(** C10.  [_request_url] is the base URL, the token and the endpoint
    joined with ["/"]: it reads nothing else of the object, the endpoint
    is the end of the result as it was given, and base URL
    ["https://x/v3"], token ["T"], endpoint ["e"] give
    ["https://x/v3/T/e"]. *)
Theorem request_url_joins_with_slashes :
  (forall self endpoint,
     _request_url self endpoint = url_spec (base_url self) (token self) endpoint)
  /\ (forall self endpoint,
        _request_url self endpoint
        = ((base_url self ++ "/" ++ token self ++ "/") ++ endpoint)%string)
  /\ (forall t m b p c f,
        _request_url (mkConnection "T" "https://x/v3" t m b p c f) "e"
        = "https://x/v3/T/e"%string).
Proof.
  split; [|split].
  - reflexivity.
  - intros self endpoint. unfold _request_url.
    now rewrite !append_assoc.
  - reflexivity.
Qed.

(** ** Construction *)

Lemma int_max_lower (a b : Z) : a <= int_max a b.
Proof. unfold int_max. destruct (Z.ltb_spec a b); lia. Qed.

Lemma gt_zero_nonneg (x : pynum) :
  PyNum.gt x (PFloat (FFin 0)) = true -> nonneg x.
Proof.
  destruct x as [z | [ | [] | q]]; cbn; try discriminate; try reflexivity.
  - intros H. apply negb_true_iff in H.
    destruct (Z.le_gt_cases 0 z) as [Hz|Hz]; [assumption|].
    exfalso. apply not_true_iff_false in H. apply H.
    apply Qle_bool_iff. unfold Qle, inject_Z; cbn. lia.
  - intros H. apply negb_true_iff in H.
    destruct (Qlt_le_dec q 0) as [Hq|Hq]; [|assumption].
    exfalso. apply not_true_iff_false in H. apply H.
    apply Qle_bool_iff. now apply Qlt_le_weak.
Qed.

Lemma max_zero_nonneg (x : pynum) : nonneg (PyNum.max (PFloat (FFin 0)) x).
Proof.
  unfold PyNum.max. destruct (PyNum.gt x (PFloat (FFin 0))) eqn:E.
  - now apply gt_zero_nonneg.
  - cbn. apply Qle_refl.
Qed.

Lemma init_bounds token base timeout_in max_try backoff proxy_in :
  1 <= max_retry (init token base timeout_in max_try backoff proxy_in)
  /\ nonneg (backoff_factor (init token base timeout_in max_try backoff proxy_in)).
Proof.
  split; cbn [init max_retry backoff_factor].
  - apply int_max_lower.
  - apply max_zero_nonneg.
Qed.

(** No coroutine assigns a configuration attribute. *)
Lemma exec_keeps_config (o : op) (self : Connection) :
  max_retry (snd (exec o self)) = max_retry self
  /\ backoff_factor (snd (exec o self)) = backoff_factor self
  /\ token (snd (exec o self)) = token self
  /\ base_url (snd (exec o self)) = base_url self.
Proof.
  destruct o as [new_client | repr tr sl endpoint method payload | aclose];
    cbn [exec].
  - unfold connect. destruct (_is_connected self); [now cbn|].
    destruct (new_client _ _); now cbn.
  - destruct (fst (request _ _ _ _ _ _ _)); now cbn.
  - unfold disconnect. destruct (_is_connected self); [|now cbn].
    cbn [negb set_is_connected _client].
    destruct (_client self) as [client|]; [|now cbn].
    destruct (aclose client); now cbn.
Qed.

Lemma run_keeps_config (ops : list op) (self : Connection) :
  max_retry (run ops self) = max_retry self
  /\ backoff_factor (run ops self) = backoff_factor self.
Proof.
  revert self. induction ops as [|o ops IH]; intros self; [now cbn|].
  cbn [run fold_left]. fold (run ops (snd (exec o self))).
  destruct (IH (snd (exec o self))) as [-> ->].
  destruct (exec_keeps_config o self) as (-> & -> & _). now split.
Qed.

(** C7.  Whatever arguments the constructor is given, zero and negative
    ones included, the object it builds has [max_retry >= 1] and
    [backoff_factor >= 0], and so has the object after any sequence of
    [connect()], [request()] and [disconnect()] calls, whatever the
    outside does during them. *)
Theorem retry_settings_bounded
    (token_in : string) (base : option string) (timeout_in : option timeout_arg)
    (max_try : option Z) (backoff : option pynum) (proxy_in : option ProxyTypes)
    (ops : list op) :
  let self := run ops (init token_in base timeout_in max_try backoff proxy_in) in
  1 <= max_retry self /\ nonneg (backoff_factor self).
Proof.
  cbv zeta.
  destruct (run_keeps_config ops
              (init token_in base timeout_in max_try backoff proxy_in)) as [-> ->].
  apply init_bounds.
Qed.

(** C8.  A falsy number given for an optional argument is replaced by
    the default before the clamp: [max_try = 0] gives [max_retry = 3],
    a zero [backoff_factor] gives [0.5] and a zero [timeout] gives
    [Timeout(10)]; so passing zero as the backoff factor never gives a
    backoff factor equal to zero. *)
Theorem init_falsy_argument_takes_default
    (token_in : string) (base : option string) (timeout_in : option timeout_arg)
    (max_try : option Z) (backoff : option pynum) (proxy_in : option ProxyTypes)
    (zero : pynum) :
  truthy zero = false ->
  max_retry (init token_in base timeout_in (Some 0) backoff proxy_in) = 3
  /\ backoff_factor (init token_in base timeout_in max_try (Some zero) proxy_in)
     = PFloat (FFin (1 # 2))
  /\ timeout (init token_in base (Some (TimeoutNum zero)) max_try backoff proxy_in)
     = Timeout_of (PInt 10)
  /\ ~ num_eq
         (backoff_factor (init token_in base timeout_in max_try (Some zero) proxy_in))
         (PInt 0).
Proof.
  intros Hz.
  assert (Hb : backoff_factor
                 (init token_in base timeout_in max_try (Some zero) proxy_in)
               = PFloat (FFin (1 # 2))).
  { cbn [init backoff_factor num_or]. now rewrite Hz. }
  repeat split.
  - exact Hb.
  - cbn [init timeout num_or]. now rewrite Hz.
  - rewrite Hb. cbn. intros H. discriminate H.
Qed.

Lemma init_falsy_argument_takes_default_witness :
  truthy (PFloat (FFin 0)) = false
  /\ max_retry (init "T" None None (Some 0) None None) = 3
  /\ backoff_factor (init "T" None None None (Some (PFloat (FFin 0))) None)
     = PFloat (FFin (1 # 2))
  /\ timeout (init "T" None (Some (TimeoutNum (PFloat (FFin 0)))) None None None)
     = Timeout_of (PInt 10)
  /\ ~ num_eq
         (backoff_factor (init "T" None None None (Some (PFloat (FFin 0))) None))
         (PInt 0).
Proof.
  split; [reflexivity|].
  apply (init_falsy_argument_takes_default "T" None None None None None
           (PFloat (FFin 0))).
  reflexivity.
Defined.

(** The falsy numbers are the zeros. *)
Lemma truthy_false_iff (x : pynum) :
  truthy x = false <-> num_eq x (PInt 0).
Proof.
  destruct x as [z | [ | s | q]]; cbn.
  - rewrite negb_false_iff, Z.eqb_eq. unfold Qeq, inject_Z; cbn. lia.
  - split; [discriminate | tauto].
  - split; [discriminate | tauto].
  - now rewrite negb_false_iff, Qeq_bool_iff.
Qed.

(** A backoff factor of zero is what a negative argument is clamped to. *)
Remark init_negative_backoff_clamps_to_zero :
  backoff_factor (init "T" None None None (Some (PInt (-1))) None)
  = PFloat (FFin 0).
Proof. reflexivity. Qed.

(** ** Lifecycle *)

Lemma client_of_flag (self : Connection) :
  conn_inv self -> _is_connected self = false -> _client self = None.
Proof.
  intros [_ H] Hf. destruct (_client self) as [client|]; [|reflexivity].
  rewrite H in Hf; [discriminate Hf | discriminate].
Qed.

Lemma flag_of_client (self : Connection) :
  conn_inv self -> _is_connected self = true ->
  exists client, _client self = Some client.
Proof.
  intros [H _] Hf. destruct (_client self) as [client|]; [now exists client|].
  now destruct (H Hf).
Qed.

Lemma init_conn_inv token_in base timeout_in max_try backoff proxy_in :
  conn_inv (init token_in base timeout_in max_try backoff proxy_in).
Proof. split; cbn; [discriminate | congruence]. Qed.

(** What [disconnect()] leaves when [aclose] raises: the flag is cleared
    and the client is still held. *)
Lemma disconnect_close_raises aclose self client e :
  _is_connected self = true ->
  _client self = Some client ->
  aclose client = Raise e ->
  disconnect aclose self = (Raise e, set_is_connected false self).
Proof.
  intros Hf Hc Ha. unfold disconnect. rewrite Hf. cbn [negb set_is_connected _client].
  now rewrite Hc, Ha.
Qed.

(** C5, as amended.  On every Connection whose flag agrees with the
    presence of its client, each lifecycle misuse ends at once with
    [RubikaConnectionError] and leaves the object as it was:
    [connect()] while connected, [disconnect()] while not connected, and
    [request()] while not connected, whose trace is empty (no HTTP call,
    no sleep). *)
Theorem misuse_rejected_when_flag_and_client_agree (self : Connection) :
  conn_inv self -> misuse_rejected self.
Proof.
  intros Hinv. repeat split.
  - intros Hf new_client. unfold connect. rewrite Hf. eexists. reflexivity.
  - intros Hf aclose. unfold disconnect. rewrite Hf. eexists. reflexivity.
  - intros Hf repr tr sl endpoint method payload. unfold request.
    rewrite (client_of_flag self Hinv Hf). eexists. reflexivity.
Qed.

Lemma misuse_rejected_when_flag_and_client_agree_witness :
  misuse_rejected Mock.fresh.
Proof.
  apply (misuse_rejected_when_flag_and_client_agree Mock.fresh).
  split; cbn; [discriminate | congruence].
Defined.

(** C5, as stated, fails on the object a [disconnect()] with a raising
    [aclose] leaves behind: its flag says not connected, and [request()]
    goes on to call the client. *)
Lemma misuse_not_rejected_after_failed_close :
  ~ misuse_rejected
      (run [Connect AsyncClient_new; Disconnect Mock.broken_close] Mock.fresh).
Proof.
  intros (_ & _ & H).
  destruct (H eq_refl Mock.repr Mock.unreachable_host Mock.sleep "e"%string
              POST None)
    as [msg Hm].
  vm_compute in Hm. discriminate Hm.
Qed.

(** On that object the client is held, and [connect()] succeeds too. *)
Remark connect_after_failed_close_succeeds :
  _client Mock.half_closed <> None
  /\ fst (connect AsyncClient_new Mock.half_closed) = Ret tt.
Proof. split; [discriminate | reflexivity]. Qed.

(** C6, as amended.  Every call of [connect()], [request()] or
    [disconnect()] other than a [disconnect()] whose [aclose] raises
    keeps the invariant that the flag is set exactly when a client is
    held, and when the call fails the whole object is what it was before
    the call. *)
Theorem state_safe_unless_close_fails (o : op) (self : Connection) :
  conn_inv self -> ~ close_fails o self -> state_safe o self.
Proof.
  intros Hinv Hclose. unfold state_safe.
  destruct o as [new_client | repr tr sl endpoint method payload | aclose];
    cbn [exec].
  - unfold connect. destruct (_is_connected self) eqn:Hf.
    + cbn. now split.
    + destruct (new_client (timeout self) (proxy self)) as [client|e]; cbn.
      * split; [|congruence]. split; cbn; [discriminate | reflexivity].
      * now split.
  - destruct (fst (request _ _ _ _ _ _ _)); cbn; now split.
  - unfold disconnect. destruct (_is_connected self) eqn:Hf; cbn [negb].
    + destruct (flag_of_client self Hinv Hf) as [client Hc].
      cbn [set_is_connected _client]. rewrite Hc.
      destruct (aclose client) as [[]|e] eqn:Ha; cbn.
      * split; [|congruence]. split; cbn; [discriminate | congruence].
      * exfalso. apply Hclose. cbn. split; [exact Hf|]. now exists client, e.
    + cbn. now split.
Qed.

Lemma state_safe_unless_close_fails_witness :
  state_safe (Disconnect Mock.broken_close) Mock.fresh.
Proof.
  apply (state_safe_unless_close_fails (Disconnect Mock.broken_close) Mock.fresh).
  - split; cbn; [discriminate | congruence].
  - cbn. intros [H _]. discriminate H.
Defined.

(** C6, as stated, fails on a [disconnect()] whose [aclose] raises: the
    call fails, the flag is cleared and the client is still held. *)
Lemma state_not_safe_when_close_fails :
  ~ (conn_inv Mock.live -> state_safe (Disconnect Mock.broken_close) Mock.live).
Proof.
  intros H.
  assert (Hinv : conn_inv Mock.live).
  { split; cbn; [discriminate | reflexivity]. }
  destruct (H Hinv) as [[_ Hflag] _].
  cbn in Hflag. assert (Hf : false = true) by (apply Hflag; discriminate).
  discriminate Hf.
Qed.

(** ** Exhausted retries *)

Lemma pow2_fits_float (attempt : Z) :
  1 <= attempt <= 1024 ->
  float_of_int (2 ^ (attempt - 1)) = Ret (FFin (inject_Z (2 ^ (attempt - 1)))).
Proof.
  intros H. unfold float_of_int.
  assert (Hle : 2 ^ (attempt - 1) <= 2 ^ 1023)
    by (apply Z.pow_le_mono_r; lia).
  assert (Hpos : 0 <= 2 ^ (attempt - 1)) by (apply Z.pow_nonneg; lia).
  assert (Hmax : 2 ^ 1023 < 2 ^ 1024 - 2 ^ 970) by (vm_compute; reflexivity).
  rewrite (Z.abs_eq _ Hpos).
  destruct (Z.leb_spec (2 ^ 1024 - 2 ^ 970) (2 ^ (attempt - 1))) as [Hbig|_];
    [lia | reflexivity].
Qed.

Lemma wait_for_delay (self : Connection) (attempt : Z) :
  delays_defined self ->
  1 <= attempt <= max_retry self ->
  wait_for self attempt = Ret (delay self attempt).
Proof.
  intros Hd Ha. unfold wait_for, delay, py_mul.
  unfold delays_defined in Hd.
  destruct (backoff_factor self) as [a|f]; cbn [bind format_2f].
  - unfold float_of_int.
    assert (Hpow : 0 < 2 ^ (attempt - 1) <= 2 ^ (max_retry self - 1))
      by (split; [apply Z.pow_pos_nonneg | apply Z.pow_le_mono_r]; lia).
    assert (Hfit : Z.abs (a * 2 ^ (attempt - 1)) < 2 ^ 1024 - 2 ^ 970).
    { rewrite Z.abs_mul, (Z.abs_eq (2 ^ (attempt - 1))) by lia.
      eapply Z.le_lt_trans; [|exact Hd].
      apply Z.mul_le_mono_nonneg_l; [apply Z.abs_nonneg | lia]. }
    destruct (Z.leb_spec (2 ^ 1024 - 2 ^ 970) (Z.abs (a * 2 ^ (attempt - 1))));
      [lia | reflexivity].
  - rewrite pow2_fits_float by lia. reflexivity.
Qed.

(** The 1025th product of a float factor is not defined. *)
Remark wait_for_overflow (self : Connection) (f : pyfloat) :
  backoff_factor self = PFloat f ->
  wait_for self 1025
  = Raise (OverflowError "int too large to convert to float").
Proof.
  intros Hb. unfold wait_for, py_mul. rewrite Hb.
  replace (float_of_int (2 ^ (1025 - 1)))
    with (@Raise pyfloat (OverflowError "int too large to convert to float"))
    by (vm_compute; reflexivity).
  reflexivity.
Qed.

Lemma run_attempt_retries repr client_request self endpoint method payload url attempt :
  delays_defined self ->
  1 <= attempt <= max_retry self ->
  fails_retryably client_request method url payload attempt ->
  run_attempt repr client_request self endpoint method payload url attempt
  = Continue (delay self attempt).
Proof.
  intros Hd Ha Hfail. unfold run_attempt, attempt_io.
  destruct Hfail as [(e & He & Hk) | (r & Hr & Hs)].
  - rewrite He. cbn [bind]. rewrite Hk. now rewrite wait_for_delay.
  - rewrite Hr. cbn [bind]. unfold raise_for_status. rewrite Hs. cbn [bind is_HTTPError].
    now rewrite wait_for_delay.
Qed.

Lemma Forall2_map_r {A B : Type} (P : A -> B -> Prop) (f : A -> B) (l : list A) :
  (forall a, In a l -> P a (f a)) -> Forall2 P l (map f l).
Proof.
  induction l as [|a l IH]; intros H; cbn; constructor.
  - apply H. now left.
  - apply IH. intros b Hb. apply H. now right.
Qed.

(** When every attempt fails with a transport-level or HTTP-status
    error, [request()] makes [max_retry] HTTP calls, sleeps after each
    of them, the last one included, and raises the retries-exhausted
    [RubikaAPIError]. *)
Lemma request_all_attempts_fail
    (repr : value -> string) (client_request : Transport) (sleep : Sleep)
    (self : Connection) (endpoint : string) (method : Method)
    (payload : option value) :
  Connected self ->
  delays_defined self ->
  (forall attempt, 1 <= attempt <= max_retry self ->
     fails_retryably client_request method (_request_url self endpoint)
       payload attempt) ->
  (forall attempt, 1 <= attempt <= max_retry self ->
     sleep attempt (delay self attempt) = Ret tt) ->
  request repr client_request sleep self endpoint method payload
  = (Raise (RubikaAPIError
             ("[" ++ endpoint ++ "] Request failed after "
                ++ str_of_int (max_retry self) ++ " attempts.")%string),
     retry_trace method (_request_url self endpoint) payload
       (map (delay self) (range 1 (max_retry self + 1)))).
Proof.
  intros [_ [client Hc]] Hd Hfail Hsleep. unfold request. rewrite Hc.
  rewrite <- (app_nil_r (range 1 (max_retry self + 1))) at 1.
  rewrite (request_loop_prefix _ _ _ _ _ _ _ _
             (map (delay self) (range 1 (max_retry self + 1)))).
  - cbn [request_loop fst snd]. now rewrite app_nil_r.
  - apply Forall2_map_r. intros a Ha. apply range_bounds in Ha. split.
    + apply run_attempt_retries; [assumption | lia | apply Hfail; lia].
    + apply Hsleep. lia.
Qed.

(** In that case there are as many sleeps as attempts. *)
Lemma request_all_attempts_fail_sleeps
    (repr : value -> string) (client_request : Transport) (sleep : Sleep)
    (self : Connection) (endpoint : string) (method : Method)
    (payload : option value) :
  Connected self ->
  delays_defined self ->
  (forall attempt, 1 <= attempt <= max_retry self ->
     fails_retryably client_request method (_request_url self endpoint)
       payload attempt) ->
  (forall attempt, 1 <= attempt <= max_retry self ->
     sleep attempt (delay self attempt) = Ret tt) ->
  let tr := snd (request repr client_request sleep self endpoint method payload) in
  length (requests_of tr) = Z.to_nat (max_retry self)
  /\ sleeps_of tr = map (delay self) (range 1 (max_retry self + 1))
  /\ length (sleeps_of tr) = Z.to_nat (max_retry self).
Proof.
  intros Hc Hd Hfail Hsleep. cbv zeta.
  rewrite (request_all_attempts_fail repr client_request sleep self endpoint
             method payload Hc Hd Hfail Hsleep). cbn [snd].
  rewrite retry_trace_requests, retry_trace_sleeps, length_map, range_length.
  repeat split; f_equal; lia.
Qed.

(** C1.  With [max_retry = 3], [backoff_factor = 0.5] and a transport
    that raises a transport-level error on every call, [request()] makes
    three HTTP calls and raises the retries-exhausted [RubikaAPIError]
    naming the endpoint and the count, but it sleeps three times, [0.5],
    [1] and [2] seconds: the third sleep comes after the last permitted
    attempt. *)
Theorem request_sleeps_after_last_attempt :
  max_retry Mock.live = 3
  /\ request Mock.repr Mock.unreachable_host Mock.sleep Mock.live "e" POST None
     = (Raise (RubikaAPIError "[e] Request failed after 3 attempts."),
        [EvRequest POST "https://x/v3/T/e" None; EvSleep (PFloat (FFin (1 # 2)));
         EvRequest POST "https://x/v3/T/e" None; EvSleep (PFloat (FFin 1));
         EvRequest POST "https://x/v3/T/e" None; EvSleep (PFloat (FFin 2))]).
Proof. split; reflexivity. Qed.

(** * Further properties of the code *)

(** ** The shape of every trace *)

Lemma wait_for_is_delay (self : Connection) (attempt : Z) (d : pynum) :
  wait_for self attempt = Ret d -> d = delay self attempt.
Proof.
  unfold wait_for, delay, py_mul.
  destruct (backoff_factor self) as [a|f]; cbn [bind format_2f].
  - destruct (float_of_int (a * 2 ^ (attempt - 1))); cbn [bind];
      intros H; [now injection H | discriminate H].
  - destruct (float_of_int (2 ^ (attempt - 1))) as [y|e] eqn:Hy; cbn [bind];
      intros H; [|discriminate H].
    injection H as <-. unfold float_of_int in Hy.
    destruct (2 ^ 1024 - 2 ^ 970 <=? Z.abs (2 ^ (attempt - 1)));
      [discriminate Hy | now injection Hy as <-].
Qed.

Lemma run_attempt_continue_delay repr client_request self endpoint method payload
    url attempt d :
  run_attempt repr client_request self endpoint method payload url attempt
  = Continue d ->
  d = delay self attempt.
Proof.
  unfold run_attempt.
  destruct (attempt_io _ _ _ _ _ _ _) as [v|e]; [discriminate|].
  destruct (is_HTTPError e); [|discriminate].
  destruct (wait_for self attempt) as [d'|e'] eqn:Hw; [|discriminate].
  intros H. injection H as <-. now apply wait_for_is_delay.
Qed.

Lemma firstn_range (n : nat) (a b : Z) :
  firstn n (range a b) = range a (Z.min b (a + Z.of_nat n)).
Proof.
  revert a. induction n as [|n IH]; intros a.
  - cbn [firstn]. now rewrite range_nil by lia.
  - destruct (Z_lt_le_dec a b) as [Hab|Hab].
    + rewrite (range_cons a b) by lia. cbn [firstn]. rewrite IH.
      rewrite (range_cons a (Z.min b (a + Z.of_nat (S n)))) by lia.
      do 2 f_equal. lia.
    + rewrite (range_nil a b), (range_nil a (Z.min _ _)) by lia.
      reflexivity.
Qed.

Lemma requests_of_app (t1 t2 : list event) :
  requests_of (t1 ++ t2) = requests_of t1 ++ requests_of t2.
Proof. apply filter_app. Qed.

Section Shape.

Variable repr : value -> string.
Variable client_request : Transport.
Variable sleep : Sleep.
Variable self : Connection.
Variable endpoint : string.
Variable method : Method.
Variable payload : option value.

Local Abbreviation url := (_request_url self endpoint).
Local Abbreviation loop :=
  (request_loop repr client_request sleep self endpoint method payload url).

(** The loop over any list of attempts: turns that slept, each with the
    delay of its attempt, and then at most one more HTTP call. *)
Lemma request_loop_shape (attempts : list Z) :
  exists (n : nat) (tail : list event),
    (n + length tail <= length attempts)%nat
    /\ (tail = [] \/ tail = [EvRequest method url payload])
    /\ snd (loop attempts)
       = retry_trace method url payload (map (delay self) (firstn n attempts))
           ++ tail.
Proof.
  induction attempts as [|a rest IH].
  - exists 0%nat, []. cbn. repeat split; auto.
  - cbn [request_loop].
    destruct (run_attempt _ _ _ _ _ _ _ a) as [r|d] eqn:Ha.
    + exists 0%nat, [EvRequest method url payload]. cbn. repeat split; auto. lia.
    + apply run_attempt_continue_delay in Ha. subst d.
      destruct (sleep a (delay self a)).
      * destruct IH as (n & tail & Hlen & Htail & Htr).
        exists (S n), tail. destruct (loop rest) as [r tr].
        cbn [snd] in *. rewrite Htr. cbn. repeat split; auto. lia.
      * exists 1%nat, []. cbn. repeat split; auto. lia.
Qed.

End Shape.

(** The trace of [request()], from the shape of the loop. *)
Lemma request_shape
    (repr : value -> string) (client_request : Transport) (sleep : Sleep)
    (self : Connection) (endpoint : string) (method : Method)
    (payload : option value) :
  exists (n : nat) (tail : list event),
    (n + length tail <= Z.to_nat (max_retry self))%nat
    /\ (tail = [] \/ tail = [EvRequest method (_request_url self endpoint) payload])
    /\ snd (request repr client_request sleep self endpoint method payload)
       = retry_trace method (_request_url self endpoint) payload
           (map (delay self) (range 1 (1 + Z.of_nat n)))
           ++ tail.
Proof.
  unfold request. destruct (_client self) as [client|].
  - destruct (request_loop_shape repr client_request sleep self endpoint method
                payload (range 1 (max_retry self + 1)))
      as (n & tail & Hlen & Htail & Htr).
    rewrite range_length in Hlen.
    exists n, tail. split; [lia|]. split; [exact Htail|].
    rewrite Htr, firstn_range. do 3 f_equal.
    destruct (Z_lt_le_dec (max_retry self) 0) as [Hneg|Hpos].
    + now rewrite !range_nil by lia.
    + f_equal. lia.
  - exists 0%nat, []. cbn. split; [lia|]. split; [now left | reflexivity].
Qed.

(** X1.  Whatever the transport and the sleeps do, the trace of a
    [request()] is a run of turns, each an HTTP call followed by a sleep,
    and then at most one more HTTP call; every HTTP call has the method,
    the URL of [_request_url] and the payload of the call, the [j]-th
    sleep lasts [backoff_factor * 2 ** (j - 1)], and the turns and the
    last call together are no more than [max_retry]. *)
Theorem request_trace_shape
    (repr : value -> string) (client_request : Transport) (sleep : Sleep)
    (self : Connection) (endpoint : string) (method : Method)
    (payload : option value) :
  exists (n : nat) (tail : list event),
    (n + length tail <= Z.to_nat (max_retry self))%nat
    /\ (tail = [] \/ tail = [EvRequest method (_request_url self endpoint) payload])
    /\ snd (request repr client_request sleep self endpoint method payload)
       = retry_trace method (_request_url self endpoint) payload
           (map (delay self) (range 1 (1 + Z.of_nat n)))
           ++ tail.
Proof.
  apply request_shape.
Qed.

(** X2.  A [request()] never makes more than [max_retry] HTTP calls, and
    it sleeps as often as it calls or once less. *)
Theorem request_calls_bounded
    (repr : value -> string) (client_request : Transport) (sleep : Sleep)
    (self : Connection) (endpoint : string) (method : Method)
    (payload : option value) :
  let tr := snd (request repr client_request sleep self endpoint method payload) in
  (length (requests_of tr) <= Z.to_nat (max_retry self))%nat
  /\ (length (sleeps_of tr) <= length (requests_of tr))%nat
  /\ (length (requests_of tr) <= S (length (sleeps_of tr)))%nat.
Proof.
  cbv zeta.
  destruct (request_shape repr client_request sleep self endpoint method
              payload) as (n & tail & Hlen & Htail & ->).
  rewrite requests_of_app, sleeps_of_app, !length_app.
  rewrite retry_trace_requests, retry_trace_sleeps, length_map, range_length.
  destruct Htail as [-> | ->]; cbn [requests_of filter is_request sleeps_of length] in *;
    lia.
Qed.

(** ** The backoff schedule *)

(** X3.  In every [request()], whatever happens, the [j]-th sleep is
    asked to last [backoff_factor * 2 ** (j - 1)] seconds. *)
Theorem request_sleeps_follow_schedule
    (repr : value -> string) (client_request : Transport) (sleep : Sleep)
    (self : Connection) (endpoint : string) (method : Method)
    (payload : option value) :
  let slept :=
    sleeps_of (snd (request repr client_request sleep self endpoint method payload))
  in
  slept = map (delay self) (range 1 (1 + Z.of_nat (length slept))).
Proof.
  cbv zeta.
  destruct (request_shape repr client_request sleep self endpoint method
              payload) as (n & tail & _ & Htail & ->).
  rewrite sleeps_of_app, retry_trace_sleeps.
  assert (Hnil : sleeps_of tail = []) by (destruct Htail as [-> | ->]; reflexivity).
  rewrite Hnil, app_nil_r, length_map, range_length.
  do 2 f_equal. lia.
Qed.

(** X4.  With an [int] backoff factor, whenever the delay after an
    attempt past the first can be computed, so can the delay after the
    attempt before it, and the later delay is twice the earlier one. *)
Theorem wait_for_int_doubles (self : Connection) (a attempt : Z) (d' : pynum) :
  backoff_factor self = PInt a ->
  1 <= attempt ->
  wait_for self (attempt + 1) = Ret d' ->
  exists n, wait_for self attempt = Ret (PInt n) /\ d' = PInt (2 * n).
Proof.
  intros Hb Ha Hw. exists (a * 2 ^ (attempt - 1)).
  assert (Hpow : 2 ^ (attempt + 1 - 1) = 2 * 2 ^ (attempt - 1)).
  { replace (attempt + 1 - 1) with (Z.succ (attempt - 1)) by lia.
    apply Z.pow_succ_r. lia. }
  unfold wait_for, py_mul in *. rewrite Hb in Hw |- *.
  cbn [bind format_2f] in *. unfold float_of_int in *. rewrite Hpow in Hw.
  clear Hpow. generalize dependent (2 ^ (attempt - 1)). intros p.
  destruct (Z.leb_spec (2 ^ 1024 - 2 ^ 970) (Z.abs (a * (2 * p))))
    as [Hbig|Hfit]; cbn [bind]; intros Hw; [discriminate Hw|].
  assert (Hd : d' = PInt (a * (2 * p))) by congruence. subst d'. clear Hw.
  destruct (Z.leb_spec (2 ^ 1024 - 2 ^ 970) (Z.abs (a * p)))
    as [Hbig|_]; cbn [bind].
  - exfalso.
    replace (a * (2 * p)) with (2 * (a * p)) in Hfit by ring.
    rewrite Z.abs_mul in Hfit. cbn [Z.abs] in Hfit.
    pose proof (Z.abs_nonneg (a * p)). lia.
  - split; [reflexivity|]. apply f_equal. ring.
Qed.

Lemma wait_for_int_doubles_witness :
  exists n, wait_for Fixture.steady 1 = Ret (PInt n) /\ PInt 4 = PInt (2 * n).
Proof.
  apply (wait_for_int_doubles Fixture.steady 2 1 (PInt 4)).
  - reflexivity.
  - lia.
  - reflexivity.
Defined.

(** ** Exceptions that are not retried *)

Lemma run_attempt_foreign_exception repr client_request self endpoint method
    payload url attempt e :
  client_request attempt method url payload = Raise e ->
  is_HTTPError e = false ->
  run_attempt repr client_request self endpoint method payload url attempt
  = Exit (Raise e).
Proof.
  intros He Hk. unfold run_attempt, attempt_io. rewrite He. cbn [bind].
  now rewrite Hk.
Qed.

(** X5.  When the client raises, at the attempt [request()] has got to,
    an exception that is not an [httpx.HTTPError], that exception leaves
    [request()] as it is: it is not retried, no sleep follows, and it is
    not turned into a [RubikaAPIError]. *)
Theorem request_propagates_foreign_exception
    (repr : value -> string) (client_request : Transport) (sleep : Sleep)
    (self : Connection) (endpoint : string) (method : Method)
    (payload : option value) (k : Z) (delays : list pynum) (e : exn) :
  Connected self ->
  1 <= k <= max_retry self ->
  reaches repr client_request sleep self endpoint method payload k delays ->
  client_request k method (_request_url self endpoint) payload = Raise e ->
  is_HTTPError e = false ->
  request repr client_request sleep self endpoint method payload
  = (Raise e,
     retry_trace method (_request_url self endpoint) payload delays
       ++ [EvRequest method (_request_url self endpoint) payload]).
Proof.
  intros [_ Hc] Hk Hreach He Hforeign.
  apply request_exit_at with (k := k); try assumption.
  now apply run_attempt_foreign_exception.
Qed.

Lemma request_propagates_foreign_exception_witness :
  request Mock.repr Fixture.bad_url Mock.sleep Mock.live "getMe" POST None
  = (Raise (OtherError "InvalidURL"),
     [EvRequest POST "https://x/v3/T/getMe" None]).
Proof.
  apply (request_propagates_foreign_exception Mock.repr Fixture.bad_url
           Mock.sleep Mock.live "getMe" POST None 1 []
           (OtherError "InvalidURL")).
  - split; [reflexivity | eexists; reflexivity].
  - vm_compute. split; discriminate.
  - constructor.
  - reflexivity.
  - reflexivity.
Defined.

Lemma run_attempt_not_object repr client_request self endpoint method payload
    url attempt resp body :
  client_request attempt method url payload = Ret resp ->
  is_success resp = true ->
  json resp = Ret body ->
  (forall items, body <> VDict items) ->
  run_attempt repr client_request self endpoint method payload url attempt
  = Exit (Raise (AttributeError (type_name body) "get")).
Proof.
  intros Hsent Hok Hj Hbody. unfold run_attempt.
  rewrite (attempt_io_response repr client_request endpoint method payload url
             attempt resp Hsent Hok).
  unfold read_envelope. rewrite Hj. cbn [bind].
  destruct body as [ | b | [z|f] | s | l | items]; try reflexivity.
  now destruct (Hbody items).
Qed.

(** X6.  When the body of a response that passes [raise_for_status]
    parses as JSON that is not an object (a list, a string, a number, a
    boolean or [null]), [request()] ends on that attempt with the
    [AttributeError] of calling [get] on that value: not a
    [RubikaAPIError], and not retried. *)
Theorem request_non_object_body_raises_attribute_error
    (repr : value -> string) (client_request : Transport) (sleep : Sleep)
    (self : Connection) (endpoint : string) (method : Method)
    (payload : option value) (k : Z) (delays : list pynum) (resp : Response)
    (body : value) :
  Connected self ->
  1 <= k <= max_retry self ->
  reaches repr client_request sleep self endpoint method payload k delays ->
  client_request k method (_request_url self endpoint) payload = Ret resp ->
  is_success resp = true ->
  json resp = Ret body ->
  (forall items, body <> VDict items) ->
  request repr client_request sleep self endpoint method payload
  = (Raise (AttributeError (type_name body) "get"),
     retry_trace method (_request_url self endpoint) payload delays
       ++ [EvRequest method (_request_url self endpoint) payload]).
Proof.
  intros [_ Hc] Hk Hreach Hsent Hok Hj Hbody.
  apply request_exit_at with (k := k); try assumption.
  now apply run_attempt_not_object with (resp := resp).
Qed.

Lemma request_non_object_body_raises_attribute_error_witness :
  request Mock.repr (Mock.always (Mock.ok_response (Ret Fixture.list_body)))
    Mock.sleep Mock.live "getUpdates" POST None
  = (Raise (AttributeError "list" "get"),
     [EvRequest POST "https://x/v3/T/getUpdates" None]).
Proof.
  apply (request_non_object_body_raises_attribute_error Mock.repr
           (Mock.always (Mock.ok_response (Ret Fixture.list_body)))
           Mock.sleep Mock.live "getUpdates" POST None 1 []
           (Mock.ok_response (Ret Fixture.list_body)) Fixture.list_body).
  - split; [reflexivity | eexists; reflexivity].
  - vm_compute. split; discriminate.
  - constructor.
  - reflexivity.
  - reflexivity.
  - reflexivity.
  - intros items H. discriminate H.
Defined.

Lemma run_attempt_status_not_string repr client_request self endpoint method
    payload url attempt resp items status :
  client_request attempt method url payload = Ret resp ->
  is_success resp = true ->
  json resp = Ret (VDict items) ->
  lookup "status" items = Some status ->
  (forall s, status <> VStr s) ->
  run_attempt repr client_request self endpoint method payload url attempt
  = Exit (Raise (AttributeError (type_name status) "upper")).
Proof.
  intros Hsent Hok Hj Hs Hstr. unfold run_attempt.
  rewrite (attempt_io_response repr client_request endpoint method payload url
             attempt resp Hsent Hok).
  unfold read_envelope. rewrite Hj. cbn [bind py_get]. rewrite Hs.
  destruct status as [ | b | [z|f] | s | l | d]; try reflexivity.
  now destruct (Hstr s).
Qed.

(** X7.  When the [status] item of the envelope is there and is not a
    string (a number, a boolean, a list, an object or [null]),
    [request()] ends on that attempt with the [AttributeError] of calling
    [upper] on that value, whatever the other items of the envelope are:
    [dev_message] and [data] are not read. *)
Theorem request_non_string_status_raises_attribute_error
    (repr : value -> string) (client_request : Transport) (sleep : Sleep)
    (self : Connection) (endpoint : string) (method : Method)
    (payload : option value) (k : Z) (delays : list pynum) (resp : Response)
    (items : list (string * value)) (status : value) :
  Connected self ->
  1 <= k <= max_retry self ->
  reaches repr client_request sleep self endpoint method payload k delays ->
  client_request k method (_request_url self endpoint) payload = Ret resp ->
  is_success resp = true ->
  json resp = Ret (VDict items) ->
  lookup "status" items = Some status ->
  (forall s, status <> VStr s) ->
  request repr client_request sleep self endpoint method payload
  = (Raise (AttributeError (type_name status) "upper"),
     retry_trace method (_request_url self endpoint) payload delays
       ++ [EvRequest method (_request_url self endpoint) payload]).
Proof.
  intros [_ Hc] Hk Hreach Hsent Hok Hj Hs Hstr.
  apply request_exit_at with (k := k); try assumption.
  now apply run_attempt_status_not_string with (resp := resp) (items := items).
Qed.

Lemma request_non_string_status_raises_attribute_error_witness :
  request Mock.repr
    (Mock.always (Mock.ok_response (Ret Fixture.numeric_status_envelope)))
    Mock.sleep Mock.live "getMe" POST None
  = (Raise (AttributeError "int" "upper"),
     [EvRequest POST "https://x/v3/T/getMe" None]).
Proof.
  apply (request_non_string_status_raises_attribute_error Mock.repr
           (Mock.always (Mock.ok_response (Ret Fixture.numeric_status_envelope)))
           Mock.sleep Mock.live "getMe" POST None 1 []
           (Mock.ok_response (Ret Fixture.numeric_status_envelope))
           [("status", VNum (PInt 200)); ("data", VDict [])] (VNum (PInt 200))).
  - split; [reflexivity | eexists; reflexivity].
  - vm_compute. split; discriminate.
  - constructor.
  - reflexivity.
  - reflexivity.
  - reflexivity.
  - reflexivity.
  - intros s H. discriminate H.
Defined.

(** ** Retries *)

Lemma run_attempt_falls_through repr client_request self endpoint method payload
    url attempt :
  fails_retryably client_request method url payload attempt ->
  run_attempt repr client_request self endpoint method payload url attempt
  = match wait_for self attempt with
    | Ret d => Continue d
    | Raise e => Exit (Raise e)
    end.
Proof.
  intros Hfail. unfold run_attempt, attempt_io.
  destruct Hfail as [(e & He & Hk) | (r & Hr & Hs)].
  - rewrite He. cbn [bind]. now rewrite Hk.
  - rewrite Hr. cbn [bind]. unfold raise_for_status. rewrite Hs. reflexivity.
Qed.

Lemma wait_for_float (self : Connection) (f : pyfloat) (attempt : Z) :
  backoff_factor self = PFloat f ->
  1 <= attempt <= 1024 ->
  wait_for self attempt = Ret (delay self attempt).
Proof.
  intros Hb Ha. unfold wait_for, delay, py_mul. rewrite Hb.
  rewrite pow2_fits_float by lia. reflexivity.
Qed.

(** Failing attempts whose delays can be computed and whose sleeps
    return take [request()] to the next attempt. *)
Lemma failing_attempts_reach
    (repr : value -> string) (client_request : Transport) (sleep : Sleep)
    (self : Connection) (endpoint : string) (method : Method)
    (payload : option value) (k : Z) :
  (forall j, 1 <= j < k ->
     fails_retryably client_request method (_request_url self endpoint) payload j
     /\ wait_for self j = Ret (delay self j)
     /\ sleep j (delay self j) = Ret tt) ->
  reaches repr client_request sleep self endpoint method payload k
    (map (delay self) (range 1 k)).
Proof.
  intros H. unfold reaches. apply Forall2_map_r. intros j Hj.
  apply range_bounds in Hj. destruct (H j Hj) as (Hfail & Hw & Hs).
  split; [|exact Hs].
  rewrite (run_attempt_falls_through _ _ _ _ _ _ _ _ Hfail). now rewrite Hw.
Qed.

(** X8.  When the attempts before the [k]-th fail with transport-level or
    HTTP-status errors and the [k]-th is answered with an ["OK"]
    envelope, [request()] returns the [data] of that envelope after [k]
    HTTP calls and [k - 1] sleeps of [backoff_factor * 2 ** (j - 1)]
    seconds: earlier failures leave no mark on the result. *)
Theorem request_recovers_after_failures
    (repr : value -> string) (client_request : Transport) (sleep : Sleep)
    (self : Connection) (endpoint : string) (method : Method)
    (payload : option value) (k : Z) (resp : Response)
    (items : list (string * value)) (s : string) :
  Connected self ->
  delays_defined self ->
  1 <= k <= max_retry self ->
  (forall j, 1 <= j < k ->
     fails_retryably client_request method (_request_url self endpoint) payload j) ->
  (forall j, 1 <= j < k -> sleep j (delay self j) = Ret tt) ->
  client_request k method (_request_url self endpoint) payload = Ret resp ->
  is_success resp = true ->
  json resp = Ret (VDict items) ->
  lookup "status" items = Some (VStr s) ->
  upper s = "OK"%string ->
  request repr client_request sleep self endpoint method payload
  = (Ret match lookup "data" items with
         | Some v => v
         | None => VDict []
         end,
     retry_trace method (_request_url self endpoint) payload
       (map (delay self) (range 1 k))
       ++ [EvRequest method (_request_url self endpoint) payload]).
Proof.
  intros [_ Hc] Hd Hk Hfail Hsleep Hsent Hok Hj Hs Hup.
  apply request_exit_at with (k := k); try assumption.
  - apply failing_attempts_reach. intros j Hjk. repeat split.
    + now apply Hfail.
    + apply wait_for_delay; [assumption | lia].
    + now apply Hsleep.
  - now apply (run_attempt_ok _ _ _ _ _ _ _ _ resp Hsent Hok items s).
Qed.

Lemma request_recovers_after_failures_witness :
  request Mock.repr (Mock.second_time (Mock.ok_response (Ret Mock.ok_envelope)))
    Mock.sleep Mock.live "sendText" POST None
  = (Ret (VDict [("x", VNum (PInt 1))]),
     retry_trace POST "https://x/v3/T/sendText" None
       (map (delay Mock.live) (range 1 2))
       ++ [EvRequest POST "https://x/v3/T/sendText" None]).
Proof.
  apply (request_recovers_after_failures Mock.repr
           (Mock.second_time (Mock.ok_response (Ret Mock.ok_envelope)))
           Mock.sleep Mock.live "sendText" POST None 2
           (Mock.ok_response (Ret Mock.ok_envelope))
           [("status", VStr "OK"); ("data", VDict [("x", VNum (PInt 1))])] "OK").
  - split; [reflexivity | eexists; reflexivity].
  - vm_compute. discriminate.
  - vm_compute. split; discriminate.
  - intros j Hj. assert (j = 1) by lia. subst j.
    left. eexists. split; reflexivity.
  - intros j Hj. reflexivity.
  - reflexivity.
  - reflexivity.
  - reflexivity.
  - reflexivity.
  - reflexivity.
Defined.

(** X9.  A sleep that is interrupted ends [request()] with the exception
    that interrupted it, and no HTTP call follows; this holds for the
    sleep after the last permitted attempt too, where the exception
    takes the place of the retries-exhausted [RubikaAPIError]. *)
Theorem request_sleep_interrupted
    (repr : value -> string) (client_request : Transport) (sleep : Sleep)
    (self : Connection) (endpoint : string) (method : Method)
    (payload : option value) (k : Z) (delays : list pynum) (e : exn) :
  Connected self ->
  delays_defined self ->
  1 <= k <= max_retry self ->
  reaches repr client_request sleep self endpoint method payload k delays ->
  fails_retryably client_request method (_request_url self endpoint) payload k ->
  sleep k (delay self k) = Raise e ->
  request repr client_request sleep self endpoint method payload
  = (Raise e,
     retry_trace method (_request_url self endpoint) payload delays
       ++ [EvRequest method (_request_url self endpoint) payload;
           EvSleep (delay self k)]).
Proof.
  intros [_ [client Hc]] Hd Hk Hreach Hfail Hs.
  unfold request. rewrite Hc.
  rewrite (range_split 1 k (max_retry self + 1)) by lia.
  rewrite (request_loop_prefix _ _ _ _ _ _ _ _ delays) by exact Hreach.
  rewrite (request_loop_sleep_raises _ _ _ _ _ _ _ _ _ (delay self k) e);
    [reflexivity | | exact Hs].
  rewrite (run_attempt_falls_through _ _ _ _ _ _ _ _ Hfail).
  now rewrite wait_for_delay.
Qed.

Lemma request_sleep_interrupted_witness :
  request Mock.repr Mock.unreachable_host Fixture.cancelled_sleep Mock.live
    "getMe" POST None
  = (Raise (OtherError "CancelledError"),
     [EvRequest POST "https://x/v3/T/getMe" None; EvSleep (delay Mock.live 1)]).
Proof.
  apply (request_sleep_interrupted Mock.repr Mock.unreachable_host
           Fixture.cancelled_sleep Mock.live "getMe" POST None 1 []
           (OtherError "CancelledError")).
  - split; [reflexivity | eexists; reflexivity].
  - vm_compute. discriminate.
  - vm_compute. split; discriminate.
  - constructor.
  - left. eexists. split; reflexivity.
  - reflexivity.
Defined.

(** X10.  With a float backoff factor the retry budget ends at 1025
    attempts: when [max_retry] is larger and the first 1025 attempts fail
    with transport-level or HTTP-status errors, the delay of the 1025th
    cannot be computed and [request()] raises [OverflowError] after the
    1025th HTTP call, not the retries-exhausted [RubikaAPIError]. *)
Theorem request_overflows_at_attempt_1025
    (repr : value -> string) (client_request : Transport) (sleep : Sleep)
    (self : Connection) (endpoint : string) (method : Method)
    (payload : option value) (f : pyfloat) :
  Connected self ->
  backoff_factor self = PFloat f ->
  1025 <= max_retry self ->
  (forall j, 1 <= j <= 1025 ->
     fails_retryably client_request method (_request_url self endpoint) payload j) ->
  (forall j, 1 <= j < 1025 -> sleep j (delay self j) = Ret tt) ->
  request repr client_request sleep self endpoint method payload
  = (Raise (OverflowError "int too large to convert to float"),
     retry_trace method (_request_url self endpoint) payload
       (map (delay self) (range 1 1025))
       ++ [EvRequest method (_request_url self endpoint) payload]).
Proof.
  intros [_ Hc] Hb Hmax Hfail Hsleep.
  apply request_exit_at with (k := 1025); try assumption; [lia | |].
  - apply failing_attempts_reach. intros j Hj. repeat split.
    + apply Hfail. lia.
    + apply (wait_for_float self f); [assumption | lia].
    + now apply Hsleep.
  - rewrite (run_attempt_falls_through _ _ _ _ _ _ _ _ (Hfail 1025 ltac:(lia))).
    now rewrite (wait_for_overflow self f Hb).
Qed.

Lemma request_overflows_at_attempt_1025_witness :
  request Mock.repr Mock.unreachable_host Mock.sleep Fixture.patient
    "getMe" POST None
  = (Raise (OverflowError "int too large to convert to float"),
     retry_trace POST (_request_url Fixture.patient "getMe") None
       (map (delay Fixture.patient) (range 1 1025))
       ++ [EvRequest POST (_request_url Fixture.patient "getMe") None]).
Proof.
  apply (request_overflows_at_attempt_1025 Mock.repr Mock.unreachable_host
           Mock.sleep Fixture.patient "getMe" POST None (FFin (1 # 2))).
  - split; [reflexivity | eexists; reflexivity].
  - reflexivity.
  - vm_compute. discriminate.
  - intros j Hj. left. eexists. split; reflexivity.
  - intros j Hj. reflexivity.
Defined.

(** ** What a returned value stands for *)

Lemma read_envelope_ret_inv repr endpoint resp v :
  read_envelope repr endpoint resp = Ret v ->
  exists items s,
    json resp = Ret (VDict items)
    /\ lookup "status" items = Some (VStr s)
    /\ upper s = "OK"%string
    /\ v = match lookup "data" items with
           | Some d => d
           | None => VDict []
           end.
Proof.
  unfold read_envelope.
  destruct (json resp) as [data|e]; cbn [bind].
  - destruct data as [ | b | x | s | l | items]; cbn [bind py_get];
      try discriminate.
    destruct (lookup "status" items) as [status|] eqn:Hs;
      [|cbn [bind py_upper]; discriminate].
    destruct status as [ | b | x | s | l | d]; cbn [bind py_upper];
      try discriminate.
    destruct (String.eqb_spec (upper s) "OK") as [Hup|Hup]; cbn [negb bind].
    + intros H. injection H as <-. now exists items, s.
    + discriminate.
  - destruct e; discriminate.
Qed.

Lemma run_attempt_ret_inv repr client_request self endpoint method payload url
    attempt v :
  run_attempt repr client_request self endpoint method payload url attempt
  = Exit (Ret v) ->
  exists resp,
    client_request attempt method url payload = Ret resp
    /\ is_success resp = true
    /\ read_envelope repr endpoint resp = Ret v.
Proof.
  unfold run_attempt, attempt_io.
  destruct (client_request attempt method url payload) as [resp|e] eqn:Hsent;
    cbn [bind].
  - unfold raise_for_status. destruct (is_success resp) eqn:Hok; cbn [bind].
    + destruct (read_envelope repr endpoint resp) as [v'|e] eqn:Hr.
      * intros H. injection H as <-. now exists resp.
      * destruct (is_HTTPError e); [|discriminate].
        destruct (wait_for self attempt); discriminate.
    + cbn [is_HTTPError]. destruct (wait_for self attempt); discriminate.
  - destruct (is_HTTPError e); [|discriminate].
    destruct (wait_for self attempt); discriminate.
Qed.

Lemma request_loop_ret_inv repr client_request sleep self endpoint method payload
    url attempts v :
  fst (request_loop repr client_request sleep self endpoint method payload url
         attempts) = Ret v ->
  exists attempt,
    In attempt attempts
    /\ run_attempt repr client_request self endpoint method payload url attempt
       = Exit (Ret v).
Proof.
  induction attempts as [|a rest IH]; cbn [request_loop fst]; [discriminate|].
  destruct (run_attempt _ _ _ _ _ _ _ a) as [r|d] eqn:Ha.
  - cbn [fst]. intros ->. exists a. split; [now left | exact Ha].
  - destruct (sleep a d); [|discriminate].
    destruct (request_loop _ _ _ _ _ _ _ _ rest) as [r tr]. cbn [fst] in *.
    intros H. destruct (IH H) as (b & Hb & Hrun). exists b. split; [now right|].
    exact Hrun.
Qed.

(** X11.  A value returned by [request()] is always the [data] of an
    ["OK"] envelope: some attempt within the budget was answered with a
    response that passes [raise_for_status], whose body parses as an
    object with a status string equal to ["OK"] in some letter case, and
    the value is the [data] item of that object, or [{}] when it has
    none. *)
Theorem request_returns_only_ok_data
    (repr : value -> string) (client_request : Transport) (sleep : Sleep)
    (self : Connection) (endpoint : string) (method : Method)
    (payload : option value) (v : value) :
  fst (request repr client_request sleep self endpoint method payload) = Ret v ->
  exists k resp items s,
    1 <= k <= max_retry self
    /\ client_request k method (_request_url self endpoint) payload = Ret resp
    /\ is_success resp = true
    /\ json resp = Ret (VDict items)
    /\ lookup "status" items = Some (VStr s)
    /\ upper s = "OK"%string
    /\ v = match lookup "data" items with
           | Some d => d
           | None => VDict []
           end.
Proof.
  unfold request. destruct (_client self) as [client|]; [|discriminate].
  intros H. apply request_loop_ret_inv in H. destruct H as (k & Hin & Hrun).
  apply range_bounds in Hin.
  apply run_attempt_ret_inv in Hrun. destruct Hrun as (resp & Hsent & Hok & Hr).
  apply read_envelope_ret_inv in Hr. destruct Hr as (items & s & Hj & Hs & Hup & Hv).
  exists k, resp, items, s. repeat split; try assumption; lia.
Qed.

Lemma request_returns_only_ok_data_witness :
  exists k resp items s,
    1 <= k <= max_retry Mock.live
    /\ Mock.second_time (Mock.ok_response (Ret Mock.ok_envelope)) k POST
         (_request_url Mock.live "sendText") None = Ret resp
    /\ is_success resp = true
    /\ json resp = Ret (VDict items)
    /\ lookup "status" items = Some (VStr s)
    /\ upper s = "OK"%string
    /\ VDict [("x", VNum (PInt 1))]
       = match lookup "data" items with
         | Some d => d
         | None => VDict []
         end.
Proof.
  apply (request_returns_only_ok_data Mock.repr
           (Mock.second_time (Mock.ok_response (Ret Mock.ok_envelope)))
           Mock.sleep Mock.live "sendText" POST None
           (VDict [("x", VNum (PInt 1))])).
  reflexivity.
Defined.

(** X12.  For an envelope whose status is a string, [request()] returns
    a value exactly when the status is spelled ["OK"], ["Ok"], ["oK"] or
    ["ok"]; every other string, ["OK "] and ["okay"] included, gives the
    error path. *)
Theorem request_succeeds_iff_status_spells_ok
    (repr : value -> string) (client_request : Transport) (sleep : Sleep)
    (self : Connection) (endpoint : string) (method : Method)
    (payload : option value) (k : Z) (delays : list pynum) (resp : Response)
    (items : list (string * value)) (s : string) :
  Connected self ->
  1 <= k <= max_retry self ->
  reaches repr client_request sleep self endpoint method payload k delays ->
  client_request k method (_request_url self endpoint) payload = Ret resp ->
  is_success resp = true ->
  json resp = Ret (VDict items) ->
  lookup "status" items = Some (VStr s) ->
  (exists v,
     fst (request repr client_request sleep self endpoint method payload) = Ret v)
  <-> ok_spelling s.
Proof.
  intros [_ Hc] Hk Hreach Hsent Hok Hj Hs. unfold ok_spelling.
  rewrite <- upper_ok_iff.
  destruct (string_dec (upper s) "OK") as [Hup|Hup].
  - split; [intros _; exact Hup|]. intros _.
    rewrite (request_exit_at repr client_request sleep self endpoint method
               payload k delays _ Hc Hk Hreach
               (run_attempt_ok _ _ _ _ _ _ _ _ resp Hsent Hok items s Hj Hs Hup)).
    eexists. reflexivity.
  - split; [|intros H; contradiction].
    rewrite (request_exit_at repr client_request sleep self endpoint method
               payload k delays _ Hc Hk Hreach
               (run_attempt_error_status _ _ _ _ _ _ _ _ resp Hsent Hok items s
                  Hj Hs Hup)).
    intros [v H]. discriminate H.
Qed.

Lemma request_succeeds_iff_status_spells_ok_witness :
  (exists v,
     fst (request Mock.repr
            (Mock.always (Mock.ok_response (Ret Fixture.lower_ok_envelope)))
            Mock.sleep Mock.live "getMe" POST None) = Ret v)
  <-> ok_spelling "ok".
Proof.
  apply (request_succeeds_iff_status_spells_ok Mock.repr
           (Mock.always (Mock.ok_response (Ret Fixture.lower_ok_envelope)))
           Mock.sleep Mock.live "getMe" POST None 1 []
           (Mock.ok_response (Ret Fixture.lower_ok_envelope))
           [("status", VStr "ok")] "ok").
  - split; [reflexivity | eexists; reflexivity].
  - vm_compute. split; discriminate.
  - constructor.
  - reflexivity.
  - reflexivity.
  - reflexivity.
  - reflexivity.
Defined.

(** ** Lifecycle sequences *)

(** X13.  On a Connection that is not connected and holds no client, a
    [connect()] followed by a [disconnect()] whose [aclose] returns both
    succeed, the object is connected in between, and at the end it is
    the object it was at the start. *)
Theorem connect_disconnect_round_trip
    (new_client : Timeout -> option ProxyTypes -> result AsyncClient)
    (aclose : AsyncClient -> result unit) (self : Connection)
    (client : AsyncClient) :
  _is_connected self = false ->
  _client self = None ->
  new_client (timeout self) (proxy self) = Ret client ->
  aclose client = Ret tt ->
  fst (connect new_client self) = Ret tt
  /\ Connected (snd (connect new_client self))
  /\ disconnect aclose (snd (connect new_client self)) = (Ret tt, self).
Proof.
  intros Hf Hc Hn Ha. unfold connect. rewrite Hf, Hn. cbn [fst snd].
  split; [reflexivity|]. split.
  - split; [reflexivity | now exists client].
  - unfold disconnect. cbn. rewrite Ha.
    destruct self as [tk bu tm mr bf px cl fl]. cbn in *. now subst.
Qed.

Lemma connect_disconnect_round_trip_witness :
  fst (connect AsyncClient_new Mock.fresh) = Ret tt
  /\ Connected (snd (connect AsyncClient_new Mock.fresh))
  /\ disconnect (fun _ => Ret tt) (snd (connect AsyncClient_new Mock.fresh))
     = (Ret tt, Mock.fresh).
Proof.
  apply (connect_disconnect_round_trip AsyncClient_new (fun _ => Ret tt)
           Mock.fresh
           (mkAsyncClient (timeout Mock.fresh) (proxy Mock.fresh)));
    reflexivity.
Defined.

(** X14.  After a [connect()] that succeeded, another [connect()] fails
    with [RubikaConnectionError], whatever state the first one started
    from; it builds no client and leaves the object as it is. *)
Theorem connect_twice_fails
    (new_client new_client' : Timeout -> option ProxyTypes -> result AsyncClient)
    (self self' : Connection) :
  connect new_client self = (Ret tt, self') ->
  connect new_client' self'
  = (Raise (RubikaConnectionError "Connection is Already connected"), self').
Proof.
  unfold connect at 1. destruct (_is_connected self); [discriminate|].
  destruct (new_client (timeout self) (proxy self)) as [client|e];
    [|discriminate].
  intros H. injection H as <-. reflexivity.
Qed.

Lemma connect_twice_fails_witness :
  connect AsyncClient_new Mock.live
  = (Raise (RubikaConnectionError "Connection is Already connected"), Mock.live).
Proof.
  apply (connect_twice_fails AsyncClient_new AsyncClient_new Mock.fresh Mock.live).
  reflexivity.
Defined.

(** X15.  After a [disconnect()] that succeeded, the object is unusable
    until the next [connect()]: another [disconnect()] fails with
    [RubikaConnectionError], and so does every [request()], without any
    HTTP call or sleep. *)
Theorem disconnected_object_rejects_calls
    (aclose : AsyncClient -> result unit) (self self' : Connection) :
  disconnect aclose self = (Ret tt, self') ->
  (forall aclose',
     disconnect aclose' self'
     = (Raise (RubikaConnectionError "Connection is already disconnected"), self'))
  /\ (forall repr client_request sleep endpoint method payload,
        request repr client_request sleep self' endpoint method payload
        = (Raise (RubikaConnectionError
                    "Connection is not connected, call 'connect()' first."), [])).
Proof.
  unfold disconnect at 1. destruct (_is_connected self); cbn [negb];
    [|discriminate].
  cbn [set_is_connected _client].
  destruct (_client self) as [client|]; [|discriminate].
  destruct (aclose client); [|discriminate].
  intros H. injection H as <-. split; reflexivity.
Qed.

Lemma disconnected_object_rejects_calls_witness :
  (forall aclose',
     disconnect aclose' Mock.fresh
     = (Raise (RubikaConnectionError "Connection is already disconnected"),
        Mock.fresh))
  /\ (forall repr client_request sleep endpoint method payload,
        request repr client_request sleep Mock.fresh endpoint method payload
        = (Raise (RubikaConnectionError
                    "Connection is not connected, call 'connect()' first."), [])).
Proof.
  apply (disconnected_object_rejects_calls (fun _ => Ret tt) Mock.live Mock.fresh).
  reflexivity.
Defined.

Lemma exec_keeps_conn_inv (o : op) (self : Connection) :
  conn_inv self -> ~ close_fails o self -> conn_inv (snd (exec o self)).
Proof.
  intros Hinv Hclose.
  destruct o as [new_client | repr tr sl endpoint method payload | aclose];
    cbn [exec].
  - unfold connect. destruct (_is_connected self) eqn:Hf; [exact Hinv|].
    destruct (new_client (timeout self) (proxy self)) as [client|e];
      [|exact Hinv].
    split; cbn; [discriminate | reflexivity].
  - destruct (fst (request _ _ _ _ _ _ _)); exact Hinv.
  - unfold disconnect. destruct (_is_connected self) eqn:Hf; cbn [negb];
      [|exact Hinv].
    destruct (flag_of_client self Hinv Hf) as [client Hc].
    cbn [set_is_connected _client]. rewrite Hc.
    destruct (aclose client) as [[]|e] eqn:Ha.
    + split; cbn; [discriminate | congruence].
    + exfalso. apply Hclose. cbn. split; [exact Hf|]. now exists client, e.
Qed.

(** X16.  Along any sequence of [connect()], [request()] and
    [disconnect()] calls, failing ones included, in which no [aclose]
    raises, the flag is set exactly when a client is held: on the object
    the constructor builds and after every call of the sequence. *)
Theorem run_keeps_invariant (ops : list op) (self : Connection) :
  conn_inv self -> closes_cleanly ops self -> conn_inv (run ops self).
Proof.
  revert self. induction ops as [|o ops IH]; intros self Hinv Hclean.
  - exact Hinv.
  - destruct Hclean as [Ho Hrest]. cbn [run fold_left].
    apply (IH (snd (exec o self))); [|exact Hrest].
    now apply exec_keeps_conn_inv.
Qed.

Lemma run_keeps_invariant_witness :
  conn_inv
    (run [Connect AsyncClient_new;
          Connect AsyncClient_new;
          Request Mock.repr Mock.unreachable_host Mock.sleep "getMe" POST None;
          Disconnect (fun _ => Ret tt);
          Disconnect (fun _ => Ret tt);
          Connect AsyncClient_new]
       Mock.fresh).
Proof.
  apply (run_keeps_invariant
           [Connect AsyncClient_new;
            Connect AsyncClient_new;
            Request Mock.repr Mock.unreachable_host Mock.sleep "getMe" POST None;
            Disconnect (fun _ => Ret tt);
            Disconnect (fun _ => Ret tt);
            Connect AsyncClient_new]
           Mock.fresh).
  - split; cbn; [discriminate | congruence].
  - cbn. repeat split; try tauto.
    + intros [_ (client & e & _ & H)]. discriminate H.
    + intros [H _]. discriminate H.
Defined.

(** X17.  No call changes the configuration: after any sequence of
    [connect()], [request()] and [disconnect()] calls, whatever the
    outside does and whether the calls fail, the token, the base URL,
    the timeout, the retry count, the backoff factor and the proxy are
    what the object had at the start, and so is the URL of every
    endpoint. *)
Theorem run_keeps_configuration (ops : list op) (self : Connection) :
  token (run ops self) = token self
  /\ base_url (run ops self) = base_url self
  /\ timeout (run ops self) = timeout self
  /\ max_retry (run ops self) = max_retry self
  /\ backoff_factor (run ops self) = backoff_factor self
  /\ proxy (run ops self) = proxy self
  /\ (forall endpoint,
        _request_url (run ops self) endpoint = _request_url self endpoint).
Proof.
  assert (Hexec : forall o s,
            token (snd (exec o s)) = token s
            /\ base_url (snd (exec o s)) = base_url s
            /\ timeout (snd (exec o s)) = timeout s
            /\ max_retry (snd (exec o s)) = max_retry s
            /\ backoff_factor (snd (exec o s)) = backoff_factor s
            /\ proxy (snd (exec o s)) = proxy s).
  { intros o s.
    destruct o as [new_client | repr tr sl endpoint method payload | aclose];
      cbn [exec].
    - unfold connect. destruct (_is_connected s); [now cbn|].
      destruct (new_client _ _); now cbn.
    - destruct (fst (request _ _ _ _ _ _ _)); now cbn.
    - unfold disconnect. destruct (_is_connected s); [|now cbn].
      cbn [negb set_is_connected _client].
      destruct (_client s) as [client|]; [|now cbn].
      destruct (aclose client); now cbn. }
  revert self. induction ops as [|o ops IH]; intros self.
  - now cbn.
  - cbn [run fold_left]. fold (run ops (snd (exec o self))).
    destruct (IH (snd (exec o self))) as (Ht & Hb & Htm & Hm & Hbf & Hp & Hu).
    destruct (Hexec o self) as (Ht' & Hb' & Htm' & Hm' & Hbf' & Hp').
    repeat split; try congruence.
    intros endpoint. unfold _request_url in *. congruence.
Qed.

(** ** More on construction *)

Lemma gt_zero_truthy (x : pynum) :
  PyNum.gt x (PFloat (FFin 0)) = true -> truthy x = true.
Proof.
  destruct x as [z | [ | s | q]]; cbn; try discriminate; try reflexivity.
  - intros H. apply negb_true_iff in H. apply negb_true_iff.
    destruct (Z.eqb_spec z 0) as [->|]; [|reflexivity].
    exfalso. apply not_true_iff_false in H. apply H.
    apply Qle_bool_iff. apply Qle_refl.
  - intros H. apply negb_true_iff in H. apply negb_true_iff.
    destruct (Qeq_bool q 0) eqn:E; [|reflexivity].
    exfalso. apply not_true_iff_false in H. apply H.
    apply Qle_bool_iff. apply Qeq_bool_iff in E. rewrite E. apply Qle_refl.
Qed.

(** X18.  Settings in range are stored as given: a [max_try] of at
    least 1 is the [max_retry] of the object, and a [backoff_factor]
    greater than zero is its backoff factor, an [int] staying an [int]. *)
Theorem init_keeps_valid_settings
    (token_in : string) (base : option string) (timeout_in : option timeout_arg)
    (proxy_in : option ProxyTypes) (n : Z) (b : pynum) :
  1 <= n ->
  PyNum.gt b (PFloat (FFin 0)) = true ->
  max_retry (init token_in base timeout_in (Some n) (Some b) proxy_in) = n
  /\ backoff_factor (init token_in base timeout_in (Some n) (Some b) proxy_in) = b.
Proof.
  intros Hn Hb. cbn [init max_retry backoff_factor int_or num_or]. split.
  - destruct (Z.eqb_spec n 0); [lia|]. unfold int_max.
    destruct (Z.ltb_spec 1 n); lia.
  - rewrite (gt_zero_truthy b Hb). unfold PyNum.max. now rewrite Hb.
Qed.

Lemma init_keeps_valid_settings_witness :
  max_retry (init "T" None None (Some 5) (Some (PInt 2)) None) = 5
  /\ backoff_factor (init "T" None None (Some 5) (Some (PInt 2)) None) = PInt 2.
Proof.
  apply (init_keeps_valid_settings "T" None None None 5 (PInt 2)).
  - lia.
  - reflexivity.
Defined.

(** X19.  Settings below range are clamped: a negative [max_try] gives
    [max_retry = 1], and a [backoff_factor] that is not zero and not
    greater than zero (a negative number, minus infinity or NaN) gives
    the float [0.0], with which the delay computed after each of the
    first 1024 attempts is [0.0]. *)
Theorem init_clamps_settings_below_range
    (token_in : string) (base : option string) (timeout_in : option timeout_arg)
    (proxy_in : option ProxyTypes) (n : Z) (b : pynum) :
  n < 0 ->
  truthy b = true ->
  PyNum.gt b (PFloat (FFin 0)) = false ->
  let self := init token_in base timeout_in (Some n) (Some b) proxy_in in
  max_retry self = 1
  /\ backoff_factor self = PFloat (FFin 0)
  /\ forall attempt, 1 <= attempt <= 1024 ->
       wait_for self attempt = Ret (PFloat (FFin 0)).
Proof.
  intros Hn Ht Hb. cbv zeta.
  assert (Hbf : backoff_factor
                  (init token_in base timeout_in (Some n) (Some b) proxy_in)
                = PFloat (FFin 0)).
  { cbn [init backoff_factor num_or]. rewrite Ht. unfold PyNum.max.
    now rewrite Hb. }
  split; [|split].
  - cbn [init max_retry int_or]. destruct (Z.eqb_spec n 0); [lia|].
    unfold int_max. destruct (Z.ltb_spec 1 n); lia.
  - exact Hbf.
  - intros attempt Ha.
    rewrite (wait_for_float _ (FFin 0) attempt Hbf Ha).
    unfold delay. rewrite Hbf. reflexivity.
Qed.

Lemma init_clamps_settings_below_range_witness :
  let self := init "T" None None (Some (-4)) (Some (PFloat FNaN)) None in
  max_retry self = 1
  /\ backoff_factor self = PFloat (FFin 0)
  /\ forall attempt, 1 <= attempt <= 1024 ->
       wait_for self attempt = Ret (PFloat (FFin 0)).
Proof.
  apply (init_clamps_settings_below_range "T" None None None (-4) (PFloat FNaN)).
  - lia.
  - reflexivity.
  - reflexivity.
Defined.

(** X20.  A missing or empty [base_url] gives the default origin, so
    that requests go to
    ["https://botapi.rubika.ir/v3/<token>/<endpoint>"]; a base URL that
    is not empty is used as given, a trailing slash included. *)
Theorem init_base_url_default
    (token_in : string) (timeout_in : option timeout_arg) (max_try : option Z)
    (backoff : option pynum) (proxy_in : option ProxyTypes) (endpoint : string) :
  _request_url (init token_in None timeout_in max_try backoff proxy_in) endpoint
  = ("https://botapi.rubika.ir/v3/" ++ token_in ++ "/" ++ endpoint)%string
  /\ _request_url (init token_in (Some ""%string) timeout_in max_try backoff proxy_in)
       endpoint
     = ("https://botapi.rubika.ir/v3/" ++ token_in ++ "/" ++ endpoint)%string
  /\ (forall c base,
        _request_url
          (init token_in (Some (String c base)) timeout_in max_try backoff proxy_in)
          endpoint
        = (String c base ++ "/" ++ token_in ++ "/" ++ endpoint)%string).
Proof.
  repeat split.
Qed.

(** ** A body that cannot be decoded *)

(** An exception of [response.json()] that is neither a
    [JSONDecodeError] nor an [httpx.HTTPError] passes the inner and the
    outer [except] clauses. *)
Lemma run_attempt_json_raises repr client_request self endpoint method payload
    url attempt resp e :
  client_request attempt method url payload = Ret resp ->
  is_success resp = true ->
  json resp = Raise e ->
  e <> JSONDecodeError ->
  is_HTTPError e = false ->
  run_attempt repr client_request self endpoint method payload url attempt
  = Exit (Raise e).
Proof.
  intros Hsent Hok Hj Hne Hk. unfold run_attempt.
  rewrite (attempt_io_response repr client_request endpoint method payload url
             attempt resp Hsent Hok).
  unfold read_envelope. rewrite Hj. cbn [bind].
  destruct e; try contradiction; try discriminate Hk; reflexivity.
Qed.

(** C3.  On a connected Connection, a response that passes
    [raise_for_status] and whose body is the byte [0xFF], which is not
    valid JSON, makes [response.json()] raise [UnicodeDecodeError]; no
    [except] clause catches it, and [request()] ends with that exception
    after one HTTP call and no sleep, not with the could-not-parse
    [RubikaAPIError]. *)
Theorem request_undecodable_body_raises_unicode_error :
  request Mock.repr (Mock.always Fixture.undecodable_response) Mock.sleep
    Mock.live "getMe" POST None
  = (Raise (OtherError "UnicodeDecodeError"),
     [EvRequest POST "https://x/v3/T/getMe" None])
  /\ is_RubikaAPIError (OtherError "UnicodeDecodeError") = false.
Proof. split; reflexivity. Qed.
